(** * trackmoji: the transaction pipeline, embedded and verified

    A shallow embedding of the request handlers of the trackmoji backend
    ([src/controllers/transaction.controller.js],
    [src/controllers/users.controller.js]), of the Gemini client they call
    ([analyzeTransaction], [queryTransactions]), and of what stands around
    them: the [checkUserExists] middleware, the route tables, the error
    boundary and the shared Prisma client.

    - JavaScript numbers are IEEE-754 binary64 values: Rocq's primitive floats.
    - Strings are [string]; a property that may be [undefined] is an [option].
    - The handlers are [async] functions that thread the store, the clock and
      the outbound model calls through [await]s: here a state monad [M] over a
      [World].
    - What the process does not own (the generative model, [JSON.parse],
      [Date] parsing and printing, the wall clock) is a [Runtime] the
      development is parametric in. *)

From Stdlib Require Import ZArith String Ascii List Floats.PrimFloat.
From stdpp Require Import base option list strings gmap sorting.

Local Open Scope string_scope.
Local Open Scope list_scope.

(** ** JavaScript values *)

(** A [Date] is its time value, milliseconds since the epoch. An invalid date
    (time value [NaN]) never leaves the code below, see [Date_parse]. *)
Definition Date : Type := Z.

(** An [Error] object, as far as the handlers look at it: [error.message]. *)
Record JsError : Type := mkError { message : string }.

(** Truthiness, the test behind [!x], [x || y] and [if (x)]. *)
Class Truthy (A : Type) : Type := truthy : A → bool.

(** [""] is the only falsy string. *)
#[export] Instance string_truthy : Truthy string :=
  λ s, negb (String.eqb s "").

(** [0], [-0] and [NaN] are the falsy numbers. *)
#[export] Instance number_truthy : Truthy float :=
  λ x, negb (PrimFloat.eqb x 0%float || PrimFloat.is_nan x).

(** Arrays are objects: always truthy. *)
#[export] Instance array_truthy {A} : Truthy (list A) := λ _, true.

(** [undefined] is falsy; a present value has its own truthiness. *)
#[export] Instance option_truthy {A} `{Truthy A} : Truthy (option A) :=
  λ o, match o with Some a => truthy a | None => false end.

(** [x || null] for a property [x] that may be absent. *)
Definition orNull {A} `{Truthy A} (o : option A) : option A :=
  match o with
  | Some a => if truthy a then Some a else None
  | None => None
  end.

(** [x || d] for a property [x] that may be absent and a default [d]. *)
Definition orElse {A} `{Truthy A} (o : option A) (d : A) : A :=
  match o with
  | Some a => if truthy a then a else d
  | None => d
  end.

(** [String.prototype.toLowerCase] on the ASCII letters. The handlers only
    compare its result with ['credit'] and ['debit']; no character outside
    ASCII lower-cases to one of the letters of these two words, so the
    comparison is decided by the ASCII letters alone. *)
Definition lower_ascii (c : ascii) : ascii :=
  let n := nat_of_ascii c in
  if (65 <=? n)%nat && (n <=? 90)%nat then ascii_of_nat (n + 32) else c.

Fixpoint toLowerCase (s : string) : string :=
  match s with
  | EmptyString => EmptyString
  | String c rest => String (lower_ascii c) (toLowerCase rest)
  end.

(** [String.prototype.includes]: [sub] occurs somewhere in [s]. *)
Fixpoint includes (s sub : string) : bool :=
  if String.prefix sub s then true
  else match s with
       | EmptyString => false
       | String _ rest => includes rest sub
       end.

(** ** Rows of the ledger store

    The columns are the ones the handlers write and read. Columns the store
    fills by default ([createdAt], [updatedAt]) are written and read by no
    handler and are left out. *)

Module User.
Record t : Type := mk {
  id : nat;
  phone : string;
  name : option string
}.
End User.

Module Transaction.
Record t : Type := mk {
  id : nat;
  amount : float;
  type : string;
  description : option string;
  category : option string;
  source : option string;
  date : Date;
  userId : nat
}.
End Transaction.

Module Credit.
Record t : Type := mk {
  id : nat;
  amount : float;
  source : option string;
  description : option string;
  date : Date;
  userId : nat
}.
End Credit.

Module Debit.
Record t : Type := mk {
  id : nat;
  amount : float;
  category : option string;
  description : option string;
  date : Date;
  userId : nat
}.
End Debit.

(** The three ledgers and the users, each table in insertion order. *)
Record Store : Type := mkStore {
  users : list User.t;
  transactions : list Transaction.t;
  credits : list Credit.t;
  debits : list Debit.t
}.

Definition emptyStore : Store := mkStore [] [] [] [].

(** ** The Gemini client's data *)

(** The object [analyzeTransaction] returns. The response schema sent with
    the request types its fields ([type], [description], [category],
    [source], [date]: STRING; [amount], [confidence]: NUMBER); a field the
    model leaves out is [undefined]. [error] is only set on the degraded
    result. *)
Module TransactionAnalysis.
Record t : Type := mk {
  type : option string;
  amount : option float;
  description : option string;
  category : option string;
  source : option string;
  date : option string;
  confidence : option float;
  error : option string
}.

(** [jsonResponse.date = d] *)
Definition set_date (d : string) (a : t) : t :=
  mk (type a) (amount a) (description a) (category a) (source a) (Some d)
     (confidence a) (error a).
End TransactionAnalysis.

(** An item of [relevantTransactions] in the query schema. *)
Module RelevantTransaction.
Record t : Type := mk {
  id : option string;
  amount : option float;
  description : option string;
  date : option string
}.
End RelevantTransaction.

(** The object the model answers a query with, and the object
    [queryTransactions] of the client returns: the same properties, each
    possibly [undefined]. [error] is only set on the degraded result. *)
Module QueryAnswer.
Record t : Type := mk {
  answer : option string;
  insights : option (list string);
  suggestedCategories : option (list string);
  relevantTransactions : option (list RelevantTransaction.t);
  totalAmount : option float;
  error : option string
}.
End QueryAnswer.

(** What is sent to [ai.models.generateContent]: one of the two fixed prompt
    templates, with the values interpolated into it. *)
Inductive Prompt : Type :=
  | AnalyzePrompt (text : string)
  | QueryPrompt (question : string) (transactionData : list Transaction.t).

(** What awaiting [ai.models.generateContent] gives: the promise rejects with
    an error, or resolves to a result whose [text] is a string, or resolves to
    something else ([!result || typeof result.text !== 'string']). *)
Inductive GenerateResult : Type :=
  | Rejects (e : JsError)
  | Resolves (text : option string).

(** What [JSON.parse] makes of a text: a [SyntaxError], the value [null], or
    an object of the shape the schema asked for. *)
Inductive Parsed (A : Type) : Type :=
  | ParseThrows (e : JsError)
  | ParsedNull
  | ParsedObject (v : A).
Arguments ParseThrows {A} e.
Arguments ParsedNull {A}.
Arguments ParsedObject {A} v.

(** The collaborators outside the process. [clock n] is what the [n]-th
    reading of the wall clock ([new Date()]) returns. [Date_parse s] is
    [new Date(s)], [None] when its time value is [NaN]. *)
Class Runtime : Type := mkRuntime {
  generateContent : Prompt → GenerateResult;
  JSON_parse_analysis : string → Parsed TransactionAnalysis.t;
  JSON_parse_answer : string → Parsed QueryAnswer.t;
  Date_parse : string → option Date;
  toISOString : Date → string;
  clock : nat → Date
}.

(** ** The world a handler runs in, and the monad of handlers *)

Record World : Type := mkWorld {
  db : Store;            (* the persisted state *)
  ticks : nat;           (* how often the clock was read *)
  aiCalls : list Prompt  (* the model calls made so far, oldest first *)
}.

Definition M (A : Type) : Type := World → A * World.

(** [M] is a monad; [x ← m; k] reads as [const x = await m; k]. *)
#[export] Instance M_ret : MRet M := λ A a w, (a, w).

#[export] Instance M_bind : MBind M :=
  λ A B k m w, let (a, w') := m w in k a w'.

(** ** The ledger store behind the Prisma client *)

(** Modelled from the spec: the Prisma schema and the generated client are
    not among the sources. Following the data model of the spec, [phone] is
    the unique key of a user, every table hands out ids of its own, and
    [create] appends a row and returns it. Store failures (which the handlers
    pass on to the error boundary) are outside this model. *)
Module prisma.

Definition freshId {A} (id : A → nat) (rows : list A) : nat :=
  S (max_list (id <$> rows)).

Definition read {A} (f : Store → A) : M A := λ w, (f (db w), w).

Definition write (f : Store → Store) : M unit :=
  λ w, (tt, mkWorld (f (db w)) (ticks w) (aiCalls w)).

(** The user with the given phone, if there is one. *)
Definition lookupUser (phone : string) (s : Store) : option User.t :=
  List.find (λ u, String.eqb (User.phone u) phone) (users s).

(** [prisma.user.findUnique({ where: { phone } })] *)
Definition user_findUnique (phone : string) : M (option User.t) :=
  read (lookupUser phone).

(** [prisma.user.create({ data: { phone, name } })] *)
Definition user_create (phone : string) (name : option string) : M User.t :=
  rows ← read users;
  let row := User.mk (freshId User.id rows) phone name in
  _ ← write (λ s, mkStore (users s ++ [row]) (transactions s) (credits s) (debits s));
  mret row.

(** [prisma.transaction.create({ data })] *)
Definition transaction_create (amount : float) (type : string)
    (description category source : option string) (date : Date) (userId : nat)
    : M Transaction.t :=
  rows ← read transactions;
  let row := Transaction.mk (freshId Transaction.id rows) amount type
               description category source date userId in
  _ ← write (λ s, mkStore (users s) (transactions s ++ [row]) (credits s) (debits s));
  mret row.

(** [prisma.credit.create({ data })] *)
Definition credit_create (amount : float) (source description : option string)
    (date : Date) (userId : nat) : M Credit.t :=
  rows ← read credits;
  let row := Credit.mk (freshId Credit.id rows) amount source description date userId in
  _ ← write (λ s, mkStore (users s) (transactions s) (credits s ++ [row]) (debits s));
  mret row.

(** [prisma.debit.create({ data })] *)
Definition debit_create (amount : float) (category description : option string)
    (date : Date) (userId : nat) : M Debit.t :=
  rows ← read debits;
  let row := Debit.mk (freshId Debit.id rows) amount category description date userId in
  _ ← write (λ s, mkStore (users s) (transactions s) (credits s) (debits s ++ [row]));
  mret row.

(** [orderBy: { date: 'desc' }] *)
Definition dateDesc (a b : Transaction.t) : Prop :=
  (Transaction.date b ≤ Transaction.date a)%Z.

#[global] Instance dateDesc_dec a b : Decision (dateDesc a b) :=
  Z_le_dec (Transaction.date b) (Transaction.date a).

(** The rows of a user, [where: { userId }]; the transactions
    [orderBy: { date: 'desc' }]. *)
Definition transactionsOf (userId : nat) (s : Store) : list Transaction.t :=
  merge_sort dateDesc
    (filter (λ t, Transaction.userId t = userId) (transactions s)).

Definition creditsOf (userId : nat) (s : Store) : list Credit.t :=
  filter (λ c, Credit.userId c = userId) (credits s).

Definition debitsOf (userId : nat) (s : Store) : list Debit.t :=
  filter (λ d, Debit.userId d = userId) (debits s).

(** [prisma.transaction.findMany({ where: { userId }, orderBy: { date: 'desc' } })] *)
Definition transaction_findMany (userId : nat) : M (list Transaction.t) :=
  read (transactionsOf userId).

(** [prisma.credit.findMany({ where: { userId } })] *)
Definition credit_findMany (userId : nat) : M (list Credit.t) :=
  read (creditsOf userId).

(** [prisma.debit.findMany({ where: { userId } })] *)
Definition debit_findMany (userId : nat) : M (list Debit.t) :=
  read (debitsOf userId).

(** [orderBy: { date: 'desc' }] on the credit and on the debit table. *)
Definition creditDateDesc (a b : Credit.t) : Prop :=
  (Credit.date b ≤ Credit.date a)%Z.

#[global] Instance creditDateDesc_dec a b : Decision (creditDateDesc a b) :=
  Z_le_dec (Credit.date b) (Credit.date a).

Definition debitDateDesc (a b : Debit.t) : Prop :=
  (Debit.date b ≤ Debit.date a)%Z.

#[global] Instance debitDateDesc_dec a b : Decision (debitDateDesc a b) :=
  Z_le_dec (Debit.date b) (Debit.date a).

(** [prisma.credit.findMany({ where: { userId }, orderBy: { date: 'desc' } })] *)
Definition credit_findMany_byDate (userId : nat) : M (list Credit.t) :=
  read (λ s, merge_sort creditDateDesc (creditsOf userId s)).

(** [prisma.debit.findMany({ where: { userId }, orderBy: { date: 'desc' } })] *)
Definition debit_findMany_byDate (userId : nat) : M (list Debit.t) :=
  read (λ s, merge_sort debitDateDesc (debitsOf userId s)).

(** Modelled from the spec: the filter
    [category: { contains: category, mode: 'insensitive' }] is evaluated by
    the store, which is not among the sources. Following the spec it is a
    case-insensitive substring match on the stored category; a row without
    category does not match. *)
Definition containsInsensitive (value : option string) (needle : string) : bool :=
  match value with
  | Some v => includes (toLowerCase v) (toLowerCase needle)
  | None => false
  end.

(** [prisma.transaction.findMany({ where: { userId, category: { contains,
    mode: 'insensitive' } }, orderBy: { date: 'desc' } })] *)
Definition transaction_findMany_category (userId : nat) (category : string)
    : M (list Transaction.t) :=
  read (λ s, merge_sort dateDesc
               (filter (λ t, Transaction.userId t = userId
                             ∧ containsInsensitive (Transaction.category t)
                                 category = true)
                  (transactions s))).

(** [prisma.debit.findMany({ where: { userId, category: { contains,
    mode: 'insensitive' } }, orderBy: { date: 'desc' } })] *)
Definition debit_findMany_category (userId : nat) (category : string)
    : M (list Debit.t) :=
  read (λ s, merge_sort debitDateDesc
               (filter (λ d, Debit.userId d = userId
                             ∧ containsInsensitive (Debit.category d)
                                 category = true)
                  (debits s))).

End prisma.

(** ** Clock, model calls and exceptions *)

(** [new Date()]: one more reading of the wall clock. *)
Definition newDate `{Runtime} : M Date :=
  λ w, (clock (ticks w), mkWorld (db w) (S (ticks w)) (aiCalls w)).

(** [new Date(value)] for a property that may be absent: [None] when the
    time value of the date is [NaN], as it is for [new Date(undefined)]. *)
Definition newDateOf `{Runtime} (value : option string) : option Date :=
  match value with
  | Some s => Date_parse s
  | None => None
  end.

(** [await ai.models.generateContent({ model, contents, config })]: the call
    is recorded, the service decides the outcome. *)
Definition ai_generateContent `{Runtime} (p : Prompt) : M GenerateResult :=
  λ w, (generateContent p, mkWorld (db w) (ticks w) (aiCalls w ++ [p])).

(** How a [try] block ends: by [throw], or normally with a value. Thrown
    values are [Error] objects. *)
Inductive Completion (A : Type) : Type :=
  | Throw (e : JsError)
  | Normal (v : A).
Arguments Throw {A} e.
Arguments Normal {A} v.

(** ** The Gemini client: the analyzer and the query engine

    The controller requires the two functions as [../utils/geminiClient]. *)

Module geminiClient.
Section with_runtime.
Context `{runtime : Runtime}.

(** The [try] block of [analyzeTransaction]. *)
Definition analyzeTransaction_try (text : string)
    : M (Completion TransactionAnalysis.t) :=
  result ← ai_generateContent (AnalyzePrompt text);
  match result with
  | Rejects e => mret (Throw e)
  | Resolves None =>
      mret (Throw (mkError "Failed to get a valid text response from the AI model."))
  | Resolves (Some resultText) =>
      match JSON_parse_analysis resultText with
      | ParseThrows e => mret (Throw e)
      | ParsedNull =>
          mret (Throw (mkError "Cannot read properties of null (reading 'date')"))
      | ParsedObject jsonResponse =>
          if negb (truthy (TransactionAnalysis.date jsonResponse)) then
            now ← newDate;
            mret (Normal (TransactionAnalysis.set_date (toISOString now) jsonResponse))
          else mret (Normal jsonResponse)
      end
  end.

(** The object built in the [catch] block of [analyzeTransaction]. *)
Definition degradedAnalysis (text : string) (now : Date) (error : JsError)
    : TransactionAnalysis.t :=
  {| TransactionAnalysis.type := Some "unknown";
     TransactionAnalysis.amount := Some 0%float;
     TransactionAnalysis.description := Some text;
     TransactionAnalysis.category := Some "unknown";
     TransactionAnalysis.source := Some "unknown";
     TransactionAnalysis.date := Some (toISOString now);
     TransactionAnalysis.confidence := Some 0%float;
     TransactionAnalysis.error := Some (message error) |}.

(** [async function analyzeTransaction(text, userPhone)] *)
Definition analyzeTransaction (text userPhone : string) : M TransactionAnalysis.t :=
  completion ← analyzeTransaction_try text;
  match completion with
  | Normal jsonResponse => mret jsonResponse
  | Throw error =>
      now ← newDate;
      mret (degradedAnalysis text now error)
  end.

(** The [try] block of [queryTransactions]. *)
Definition queryTransactions_try (question : string)
    (transactions : list Transaction.t) : M (Completion QueryAnswer.t) :=
  result ← ai_generateContent (QueryPrompt question transactions);
  match result with
  | Rejects e => mret (Throw e)
  | Resolves None =>
      mret (Throw (mkError
        "Failed to get a valid text response from the AI model for query."))
  | Resolves (Some resultText) =>
      match JSON_parse_answer resultText with
      | ParseThrows e => mret (Throw e)
      | ParsedNull =>
          mret (Throw (mkError "Cannot read properties of null (reading 'answer')"))
      | ParsedObject jsonResponse =>
          mret (Normal
            {| QueryAnswer.answer :=
                 Some (orElse (QueryAnswer.answer jsonResponse)
                         "I couldn't analyze your transactions properly.");
               QueryAnswer.insights :=
                 Some (orElse (QueryAnswer.insights jsonResponse) []);
               QueryAnswer.suggestedCategories :=
                 Some (orElse (QueryAnswer.suggestedCategories jsonResponse) []);
               QueryAnswer.relevantTransactions :=
                 Some (orElse (QueryAnswer.relevantTransactions jsonResponse) []);
               QueryAnswer.totalAmount :=
                 Some (orElse (QueryAnswer.totalAmount jsonResponse) 0%float);
               QueryAnswer.error := None |})
      end
  end.

(** The object built in the [catch] block of [queryTransactions]. *)
Definition degradedAnswer (error : JsError) : QueryAnswer.t :=
  {| QueryAnswer.answer :=
       Some "Sorry, I encountered an error while analyzing your transactions.";
     QueryAnswer.insights := None;
     QueryAnswer.suggestedCategories := None;
     QueryAnswer.relevantTransactions := None;
     QueryAnswer.totalAmount := None;
     QueryAnswer.error := Some (message error) |}.

(** [async function queryTransactions(question, transactions, userPhone)] *)
Definition queryTransactions (question : string)
    (transactions : list Transaction.t) (userPhone : string) : M QueryAnswer.t :=
  completion ← queryTransactions_try question transactions;
  match completion with
  | Normal answer => mret answer
  | Throw error => mret (degradedAnswer error)
  end.

End with_runtime.
End geminiClient.

(** ** HTTP responses *)

(** [res.status(status).json(json)] *)
Record Response (B : Type) : Type := mkResponse { status : nat; json : B }.
Arguments mkResponse {B} status json.
Arguments status {B} r.
Arguments json {B} r.

(** [specificTransaction]: a row of the credit or of the debit ledger. *)
Inductive SpecificTransaction : Type :=
  | CreditRow (row : Credit.t)
  | DebitRow (row : Debit.t).

(** The [analysis] object of the 201 response of [processTransaction]. *)
Record CondensedAnalysis : Type := mkCondensed {
  c_confidence : option float;
  c_category : option string;
  c_source : option string;
  c_date : Date
}.

(** Bodies of [processTransaction]:
    [{ success: false, error: { message }, partialAnalysis }] and
    [{ success: true, data: { transaction, specificTransaction, analysis } }];
    an [undefined] property is not part of the JSON text. *)
Inductive ProcessBody : Type :=
  | ProcessFailure (message : string)
      (partialAnalysis : option TransactionAnalysis.t)
  | ProcessData (transaction : Transaction.t)
      (specificTransaction : option SpecificTransaction)
      (analysis : CondensedAnalysis).

(** Bodies of the controller's [queryTransactions]:
    [{ success: false, error: { message } }], the early
    [{ success: true, data: { answer } }], and the full
    [{ success: true, data: { answer, insights, suggestedCategories,
       relevantTransactions, totalAmount, transactionCount } }]. *)
Inductive QueryBody : Type :=
  | QueryFailure (message : string)
  | QueryEarly (answer : string)
  | QueryData (answer : option string)
      (insights suggestedCategories : option (list string))
      (relevantTransactions : list RelevantTransaction.t)
      (totalAmount : float) (transactionCount : nat).

(** The [data] of [getTransactionSummary]. *)
Record Summary : Type := mkSummary {
  totalDebit : float;
  totalCredit : float;
  balance : float;
  debitCount : nat;
  creditCount : nat;
  categoryBreakdown : gmap string float;
  sourceBreakdown : gmap string float
}.

Inductive SummaryBody : Type :=
  | SummaryFailure (message : string)
  | SummaryData (data : Summary).

(** Bodies of [createUser]:
    [{ success: false, error: { message } }] and
    [{ success: true, data: { message, user } }]. *)
Inductive CreateUserBody : Type :=
  | CreateUserFailure (message : string)
  | CreateUserData (message : string) (user : User.t).

(** Bodies of the list accessors ([getTransactions], [getUserCredits],
    [getUserDebits]): [{ success: false, error: { message } }] and
    [{ success: true, data: rows }]. *)
Inductive ListBody (A : Type) : Type :=
  | ListFailure (message : string)
  | ListData (data : list A).
Arguments ListFailure {A} message.
Arguments ListData {A} data.

(** Bodies of [getTransactionsByCategory]; the data is
    [{ transactions, debits, category, totalAmount, count }]. *)
Inductive CategoryBody : Type :=
  | CategoryFailure (message : string)
  | CategoryData (transactions : list Transaction.t) (debits : list Debit.t)
      (category : string) (totalAmount : float) (count : nat).

(** Bodies of [getUserByPhone]. *)
Inductive UserBody : Type :=
  | UserFailure (message : string)
  | UserData (data : User.t).

(** ** src/controllers/transaction.controller.js

    A request field that is absent behaves as the empty string: the handlers
    test it for truthiness before they use it. *)

Module transactionController.
Section with_runtime.
Context `{runtime : Runtime}.

(** The "Parse transaction date" block: [new Date(analysis.date)], replaced
    by the current date when its time value is [NaN]. *)
Definition parseTransactionDate (date : option string) : M Date :=
  match newDateOf date with
  | Some transactionDate => mret transactionDate
  | None => newDate
  end.

(** "Also save to the specific transaction type table (Credit or Debit)" *)
Definition saveSpecific (analysis : TransactionAnalysis.t) (type : string)
    (amount : float) (transactionDate : Date) (userId : nat)
    : M (option SpecificTransaction) :=
  if String.eqb (toLowerCase type) "credit" then
    row ← prisma.credit_create amount
            (orNull (TransactionAnalysis.source analysis))
            (orNull (TransactionAnalysis.description analysis))
            transactionDate userId;
    mret (Some (CreditRow row))
  else if String.eqb (toLowerCase type) "debit" then
    row ← prisma.debit_create amount
            (orNull (TransactionAnalysis.category analysis))
            (orNull (TransactionAnalysis.description analysis))
            transactionDate userId;
    mret (Some (DebitRow row))
  else mret None.

(** What follows the validation of the analysis in [processTransaction]:
    [type] and [amount] are the (truthy) values of [analysis.type] and
    [analysis.amount]. *)
Definition persistTransaction (userPhone : string)
    (analysis : TransactionAnalysis.t) (type : string) (amount : float)
    : M (Response ProcessBody) :=
  found ← prisma.user_findUnique userPhone;
  user ← match found with
         | Some user => mret user
         | None => prisma.user_create userPhone None
         end;
  transactionDate ← parseTransactionDate (TransactionAnalysis.date analysis);
  transaction ← prisma.transaction_create amount type
                  (orNull (TransactionAnalysis.description analysis))
                  (orNull (TransactionAnalysis.category analysis))
                  (orNull (TransactionAnalysis.source analysis))
                  transactionDate (User.id user);
  specificTransaction ←
    saveSpecific analysis type amount transactionDate (User.id user);
  mret (mkResponse 201
          (ProcessData transaction specificTransaction
             (mkCondensed (TransactionAnalysis.confidence analysis)
                          (TransactionAnalysis.category analysis)
                          (TransactionAnalysis.source analysis)
                          transactionDate))).

(** [exports.processTransaction] *)
Definition processTransaction (text userPhone : string)
    : M (Response ProcessBody) :=
  if negb (truthy text) || negb (truthy userPhone) then
    mret (mkResponse 400
            (ProcessFailure "Missing required fields: text and userPhone" None))
  else
    analysis ← geminiClient.analyzeTransaction text userPhone;
    let invalid : M (Response ProcessBody) :=
      mret (mkResponse 422
              (ProcessFailure "Could not clearly analyze the transaction"
                 (Some analysis))) in
    match TransactionAnalysis.type analysis,
          TransactionAnalysis.amount analysis with
    | Some type, Some amount =>
        if negb (truthy type) || negb (truthy amount) then invalid
        else persistTransaction userPhone analysis type amount
    | _, _ => invalid
    end.

(** [exports.queryTransactions] *)
Definition queryTransactions (question userPhone : string)
    : M (Response QueryBody) :=
  if negb (truthy question) || negb (truthy userPhone) then
    mret (mkResponse 400
            (QueryFailure "Missing required fields: question and userPhone"))
  else
    found ← prisma.user_findUnique userPhone;
    match found with
    | None => mret (mkResponse 404 (QueryFailure "User not found"))
    | Some user =>
        transactions ← prisma.transaction_findMany (User.id user);
        if (length transactions =? 0)%nat then
          mret (mkResponse 200
                  (QueryEarly "You don't have any transactions yet."))
        else
          analysis ← geminiClient.queryTransactions question transactions userPhone;
          mret (mkResponse 200
                  (QueryData (QueryAnswer.answer analysis)
                     (QueryAnswer.insights analysis)
                     (QueryAnswer.suggestedCategories analysis)
                     (orElse (QueryAnswer.relevantTransactions analysis) [])
                     (orElse (QueryAnswer.totalAmount analysis) 0%float)
                     (length transactions)))
    end.

(** [debits.reduce((acc, debit) => acc + debit.amount, 0)] *)
Definition sumAmounts {A} (amount : A → float) (rows : list A) : float :=
  foldl (λ acc row, acc + amount row)%float 0%float rows.

(** The two breakdown reductions:
    [acc[key] = (acc[key] || 0) + row.amount] over an object that starts
    empty. Keys that an empty object inherits ([constructor], [toString],
    ...) are outside this model. *)
Definition breakdown {A} (key : A → option string) (fallback : string)
    (amount : A → float) (rows : list A) : gmap string float :=
  foldl (λ acc row,
           let k := orElse (key row) fallback in
           <[k := (orElse (acc !! k) 0 + amount row)%float]> acc)
        ∅ rows.

(** [exports.getTransactionSummary] *)
Definition getTransactionSummary (userPhone : string)
    : M (Response SummaryBody) :=
  if negb (truthy userPhone) then
    mret (mkResponse 400 (SummaryFailure "User phone number is required"))
  else
    found ← prisma.user_findUnique userPhone;
    match found with
    | None => mret (mkResponse 404 (SummaryFailure "User not found"))
    | Some user =>
        debits ← prisma.debit_findMany (User.id user);
        credits ← prisma.credit_findMany (User.id user);
        let totalDebit := sumAmounts Debit.amount debits in
        let totalCredit := sumAmounts Credit.amount credits in
        let balance := (totalCredit - totalDebit)%float in
        let categoryBreakdown :=
          breakdown Debit.category "uncategorized" Debit.amount debits in
        let sourceBreakdown :=
          breakdown Credit.source "unknown" Credit.amount credits in
        mret (mkResponse 200
                (SummaryData
                   (mkSummary totalDebit totalCredit balance
                      (length debits) (length credits)
                      categoryBreakdown sourceBreakdown)))
    end.

(** The lookup that opens every read accessor: 400 without a phone, 404
    for a phone nobody has, else the accessor proper. *)
Definition withUser {B} (failure : string → B) (userPhone : string)
    (found : User.t → M (Response B)) : M (Response B) :=
  if negb (truthy userPhone) then
    mret (mkResponse 400 (failure "User phone number is required"))
  else
    user ← prisma.user_findUnique userPhone;
    match user with
    | None => mret (mkResponse 404 (failure "User not found"))
    | Some user => found user
    end.

(** [exports.getTransactions] *)
Definition getTransactions (userPhone : string)
    : M (Response (ListBody Transaction.t)) :=
  withUser ListFailure userPhone (λ user,
    transactions ← prisma.transaction_findMany (User.id user);
    mret (mkResponse 200 (ListData transactions))).

(** [exports.getUserCredits] *)
Definition getUserCredits (userPhone : string)
    : M (Response (ListBody Credit.t)) :=
  withUser ListFailure userPhone (λ user,
    credits ← prisma.credit_findMany_byDate (User.id user);
    mret (mkResponse 200 (ListData credits))).

(** [exports.getUserDebits] *)
Definition getUserDebits (userPhone : string)
    : M (Response (ListBody Debit.t)) :=
  withUser ListFailure userPhone (λ user,
    debits ← prisma.debit_findMany_byDate (User.id user);
    mret (mkResponse 200 (ListData debits))).

(** [exports.getTransactionsByCategory] *)
Definition getTransactionsByCategory (userPhone category : string)
    : M (Response CategoryBody) :=
  if negb (truthy userPhone) || negb (truthy category) then
    mret (mkResponse 400
            (CategoryFailure "User phone number and category are required"))
  else
    found ← prisma.user_findUnique userPhone;
    match found with
    | None => mret (mkResponse 404 (CategoryFailure "User not found"))
    | Some user =>
        transactions ← prisma.transaction_findMany_category (User.id user) category;
        debits ← prisma.debit_findMany_category (User.id user) category;
        let totalAmount := sumAmounts Debit.amount debits in
        mret (mkResponse 200
                (CategoryData transactions debits category totalAmount
                   (length transactions)))
    end.

End with_runtime.
End transactionController.

(** ** src/middleware/checkUserExists.js

    [userPhone] is [req.body?.userPhone || req.query?.userPhone]; [next] is
    the handler the route table puts behind the middleware, run with the
    user found as [req.user]; [failure] builds the
    [{ success: false, error: { message } }] body of that handler's response
    type. One of the route tables of the repository guards the transaction
    handlers with it, the other mounts them bare; the handlers are verified
    as the functions they are. *)

Module middleware.

Definition checkUserExists {B} (failure : string → B) (userPhone : string)
    (next : User.t → M (Response B)) : M (Response B) :=
  if negb (truthy userPhone) then
    mret (mkResponse 400 (failure "Missing required field: userPhone"))
  else
    user ← prisma.user_findUnique userPhone;
    match user with
    | None =>
        mret (mkResponse 404 (failure "User not found. Please register first."))
    | Some user => next user
    end.

End middleware.

(** ** src/controllers/users.controller.js *)

Module usersController.

(** [exports.createUser] *)
Definition createUser (userPhone : string) (name : option string)
    : M (Response CreateUserBody) :=
  if negb (truthy userPhone) then
    mret (mkResponse 400 (CreateUserFailure "Phone number is required"))
  else
    existingUser ← prisma.user_findUnique userPhone;
    match existingUser with
    | Some _ =>
        mret (mkResponse 400
                (CreateUserFailure "User with this phone number already exists"))
    | None =>
        newUser ← prisma.user_create userPhone (orNull name);
        mret (mkResponse 201
                (CreateUserData "User created successfully" newUser))
    end.

(** [exports.getUserByPhone]; [user] is [req.user]. *)
Definition getUserByPhone (user : option User.t) : M (Response UserBody) :=
  match user with
  | None => mret (mkResponse 404 (UserFailure "User not found"))
  | Some user => mret (mkResponse 200 (UserData user))
  end.

End usersController.

(** ** src/routes: the two route tables

    What a route reads of a request: the JSON body and the query string.
    [req.params] only holds what the path of the route names. *)

Record Request : Type := mkRequest {
  body_text : string;
  body_question : string;
  body_userPhone : string;
  query_userPhone : string
}.

(** [req.body?.userPhone || req.query?.userPhone] *)
Definition identifiedPhone (req : Request) : string :=
  if truthy (body_userPhone req) then body_userPhone req
  else query_userPhone req.

(** src/routes/transaction.routes.js: every handler behind
    [checkUserExists], on paths without a [:userPhone] segment, so that the
    [req.params.userPhone] the read accessors look at is [undefined]. *)
Module guardedRoutes.
Section with_runtime.
Context `{runtime : Runtime}.

(** [router.post('/', checkUserExists, transactionController.processTransaction)] *)
Definition postRoot (req : Request) : M (Response ProcessBody) :=
  middleware.checkUserExists (λ message, ProcessFailure message None)
    (identifiedPhone req)
    (λ _, transactionController.processTransaction
            (body_text req) (body_userPhone req)).

(** [router.post('/query', checkUserExists, transactionController.queryTransactions)] *)
Definition postQuery (req : Request) : M (Response QueryBody) :=
  middleware.checkUserExists QueryFailure (identifiedPhone req)
    (λ _, transactionController.queryTransactions
            (body_question req) (body_userPhone req)).

(** [router.get('/', checkUserExists, transactionController.getTransactions)] *)
Definition getRoot (req : Request) : M (Response (ListBody Transaction.t)) :=
  middleware.checkUserExists ListFailure (identifiedPhone req)
    (λ _, transactionController.getTransactions "").

(** [router.get('/summary', checkUserExists, transactionController.getTransactionSummary)] *)
Definition getSummary (req : Request) : M (Response SummaryBody) :=
  middleware.checkUserExists SummaryFailure (identifiedPhone req)
    (λ _, transactionController.getTransactionSummary "").

(** [router.get('/credits', checkUserExists, transactionController.getUserCredits)] *)
Definition getCredits (req : Request) : M (Response (ListBody Credit.t)) :=
  middleware.checkUserExists ListFailure (identifiedPhone req)
    (λ _, transactionController.getUserCredits "").

(** [router.get('/debits', checkUserExists, transactionController.getUserDebits)] *)
Definition getDebits (req : Request) : M (Response (ListBody Debit.t)) :=
  middleware.checkUserExists ListFailure (identifiedPhone req)
    (λ _, transactionController.getUserDebits "").

(** [router.get('/category', checkUserExists, transactionController.getTransactionsByCategory)] *)
Definition getCategory (req : Request) : M (Response CategoryBody) :=
  middleware.checkUserExists CategoryFailure (identifiedPhone req)
    (λ _, transactionController.getTransactionsByCategory "" "").

End with_runtime.
End guardedRoutes.

(** The users routes:
    [router.get('/search', checkUserExists, userController.getUserByPhone)]. *)
Module usersRoutes.

Definition getSearch (req : Request) : M (Response UserBody) :=
  middleware.checkUserExists UserFailure (identifiedPhone req)
    (λ user, usersController.getUserByPhone (Some user)).

End usersRoutes.

(** ** src/utils/errorHandler.js *)

Module errorHandler.

(** What [err instanceof ...] tells apart. *)
Inductive ErrorClass : Type :=
  | PrismaClientKnownRequestError
  | PrismaClientValidationError
  | OtherError.

(** [err.meta], as far as the handler reads it. *)
Record Meta : Type := mkMeta {
  target : option (list string);
  cause : option string
}.

(** The error handed to [next]. *)
Record Err : Type := mkErr {
  class : ErrorClass;
  name : string;
  message : string;
  stack : option string;
  code : option string;
  meta : option Meta
}.

(** The [error] object of the response; an absent property is [None]. *)
Record Body : Type := mkBody {
  body_message : string;
  body_stack : option string;
  body_code : option string;
  body_meta : option Meta
}.

(** [err.code === value] *)
Definition codeIs (err : Err) (value : string) : bool :=
  match code err with
  | Some c => String.eqb c value
  | None => false
  end.

(** [err.meta?.target?.join(', ')] inside the template of the message: an
    [undefined] is printed as the text [undefined]. *)
Definition targetText (err : Err) : string :=
  match meta err with
  | Some m =>
      match target m with
      | Some fields => String.concat ", " fields
      | None => "undefined"
      end
  | None => "undefined"
  end.

(** [err.meta?.cause] *)
Definition causeOf (err : Err) : option string :=
  match meta err with
  | Some m => cause m
  | None => None
  end.

(** The [switch (err.code)] on a known request error. *)
Definition knownRequestError (err : Err) : nat * string :=
  if codeIs err "P2002" then
    (409, String.append "Unique constraint failed on the field(s): "
            (targetText err))
  else if codeIs err "P2025" then
    (404,
     match orNull (causeOf err) with
     | Some reason => reason
     | None =>
         if includes (message err) "prisma.findUniqueOrThrow"
         then "Required resource not found."
         else "Resource not found."
     end)
  else (400, "Database request error. Check input data.").

(** [errorHandler(err, req, res, next)]; [production] is
    [process.env.NODE_ENV === 'production']. *)
Definition errorHandler (production : bool) (err : Err) : Response Body :=
  let '(statusCode, message) :=
    match class err with
    | PrismaClientKnownRequestError => knownRequestError err
    | PrismaClientValidationError =>
        (400, "Validation error: Invalid input data provided.")
    | OtherError =>
        if String.eqb (name err) "ValidationError" then (400, errorHandler.message err)
        else (500, "Internal Server Error")
    end in
  mkResponse statusCode
    (mkBody message
       (if production then None else stack err)
       (orNull (code err))
       (meta err)).

End errorHandler.

(** ** prisma/client.js *)

Module prismaClient.

(** The module's state: the variable [prisma], and how many clients
    [new PrismaClient()] has constructed so far. A client is named by its
    rank of construction. *)
Record State : Type := mkState {
  prisma : option nat;
  constructed : nat
}.

(** The state when the module is loaded: [let prisma]. *)
Definition loaded : State := mkState None 0.

(** [function getPrismaClient()] *)
Definition getPrismaClient (st : State) : nat * State :=
  match prisma st with
  | Some client => (client, st)
  | None =>
      let client := constructed st in
      (client, mkState (Some client) (S (constructed st)))
  end.

(** [n] calls in a row: the clients returned, and the state left. *)
Fixpoint calls (n : nat) (st : State) : list nat * State :=
  match n with
  | O => ([], st)
  | S n' =>
      let (client, st') := getPrismaClient st in
      let (rest, st'') := calls n' st' in
      (client :: rest, st'')
  end.

End prismaClient.

(** ** Vocabulary of the properties *)

Section Vocabulary.
Context `{runtime : Runtime}.

(** An internal failure of the analyzer on [text], with the error it
    raises: the generation service fails, its result carries no text, the
    text is not JSON, or the JSON is [null]. *)
Inductive AnalysisFails (text : string) : JsError → Prop :=
  | AnalysisGenerationError e :
      generateContent (AnalyzePrompt text) = Rejects e →
      AnalysisFails text e
  | AnalysisNoText :
      generateContent (AnalyzePrompt text) = Resolves None →
      AnalysisFails text
        (mkError "Failed to get a valid text response from the AI model.")
  | AnalysisUnparseable resultText e :
      generateContent (AnalyzePrompt text) = Resolves (Some resultText) →
      JSON_parse_analysis resultText = ParseThrows e →
      AnalysisFails text e
  | AnalysisNull resultText :
      generateContent (AnalyzePrompt text) = Resolves (Some resultText) →
      JSON_parse_analysis resultText = ParsedNull →
      AnalysisFails text
        (mkError "Cannot read properties of null (reading 'date')").

(** The same for the query engine on [question] and [transactions]. *)
Inductive QueryFails (question : string) (transactions : list Transaction.t)
    : JsError → Prop :=
  | QueryGenerationError e :
      generateContent (QueryPrompt question transactions) = Rejects e →
      QueryFails question transactions e
  | QueryNoText :
      generateContent (QueryPrompt question transactions) = Resolves None →
      QueryFails question transactions
        (mkError "Failed to get a valid text response from the AI model for query.")
  | QueryUnparseable resultText e :
      generateContent (QueryPrompt question transactions)
      = Resolves (Some resultText) →
      JSON_parse_answer resultText = ParseThrows e →
      QueryFails question transactions e
  | QueryNull resultText :
      generateContent (QueryPrompt question transactions)
      = Resolves (Some resultText) →
      JSON_parse_answer resultText = ParsedNull →
      QueryFails question transactions
        (mkError "Cannot read properties of null (reading 'answer')").

(** The date [processTransaction] stores for an analysis when it reaches the
    date block in world [w]: the parsed [analysis.date], or else the next
    reading of the clock. *)
Definition normalizedDate (analysis : TransactionAnalysis.t) (w : World) : Date :=
  match newDateOf (TransactionAnalysis.date analysis) with
  | Some d => d
  | None => clock (ticks w)
  end.

End Vocabulary.

(** The user [processTransaction] works for: the one found, or a new one
    carrying the phone alone. *)
Definition resolvedUser (userPhone : string) (s : Store) : User.t :=
  match prisma.lookupUser userPhone s with
  | Some user => user
  | None => User.mk (prisma.freshId User.id (users s)) userPhone None
  end.

(** The sum of a list of numbers, added up from the left starting at [0]
    (floating-point addition is not associative). *)
Fixpoint sumFrom (acc : float) (xs : list float) : float :=
  match xs with
  | [] => acc
  | x :: rest => sumFrom (acc + x)%float rest
  end.

Definition sum (xs : list float) : float := sumFrom 0%float xs.

(** The same world with another unified transaction table. *)
Definition withTransactions (ts : list Transaction.t) (w : World) : World :=
  mkWorld (mkStore (users (db w)) ts (credits (db w)) (debits (db w)))
          (ticks w) (aiCalls w).

(** ** A runtime to run the handlers on

    The model answers every prompt with [reply]; [JSON.parse] reads every
    text as [analysis], respectively [answer]; dates are read as the number
    of characters of their text and printed as a fixed text; the clock
    counts its readings. *)
Definition scriptedRuntime (reply : GenerateResult)
    (analysis : Parsed TransactionAnalysis.t) (answer : Parsed QueryAnswer.t)
    : Runtime :=
  {| generateContent := λ _, reply;
     JSON_parse_analysis := λ _, analysis;
     JSON_parse_answer := λ _, answer;
     Date_parse := λ s, if String.eqb s "" then None
                        else Some (Z.of_nat (String.length s));
     toISOString := λ _, "2025-01-01T00:00:00.000Z";
     clock := λ n, Z.of_nat n |}.

Definition emptyWorld : World := mkWorld emptyStore 0 [].

(** "received 500 from mom", as a well-formed analysis. *)
Definition momAnalysis : TransactionAnalysis.t :=
  {| TransactionAnalysis.type := Some "credit";
     TransactionAnalysis.amount := Some 500%float;
     TransactionAnalysis.description := Some "received from mom";
     TransactionAnalysis.category := Some "gift";
     TransactionAnalysis.source := Some "mom";
     TransactionAnalysis.date := Some "2025-03-04";
     TransactionAnalysis.confidence := Some 0.75%float;
     TransactionAnalysis.error := None |}.

Definition momRuntime : Runtime :=
  scriptedRuntime (Resolves (Some "{...}")) (ParsedObject momAnalysis) ParsedNull.

(** "paid the landlord", analysed with an amount of zero. *)
Definition zeroAnalysis : TransactionAnalysis.t :=
  {| TransactionAnalysis.type := Some "debit";
     TransactionAnalysis.amount := Some 0%float;
     TransactionAnalysis.description := Some "paid the landlord";
     TransactionAnalysis.category := Some "rent";
     TransactionAnalysis.source := Some "landlord";
     TransactionAnalysis.date := Some "2025-03-04";
     TransactionAnalysis.confidence := Some 0.5%float;
     TransactionAnalysis.error := None |}.

Definition zeroRuntime : Runtime :=
  scriptedRuntime (Resolves (Some "{...}")) (ParsedObject zeroAnalysis) ParsedNull.

(** An analysis of a type the prompt did not ask for. *)
Definition transferAnalysis : TransactionAnalysis.t :=
  {| TransactionAnalysis.type := Some "Transfer";
     TransactionAnalysis.amount := Some 120%float;
     TransactionAnalysis.description := Some "moved to savings";
     TransactionAnalysis.category := None;
     TransactionAnalysis.source := Some "";
     TransactionAnalysis.date := None;
     TransactionAnalysis.confidence := Some 0.25%float;
     TransactionAnalysis.error := None |}.

Definition transferRuntime : Runtime :=
  scriptedRuntime (Resolves (Some "{...}")) (ParsedObject transferAnalysis)
    ParsedNull.

(** The generation service is down. *)
Definition quotaError : JsError := mkError "429 quota exceeded".

Definition failingRuntime : Runtime :=
  scriptedRuntime (Rejects quotaError) ParsedNull ParsedNull.

(** One registered user, nothing recorded yet. *)
Definition registeredWorld : World :=
  mkWorld (mkStore [User.mk 1 "+1555" None] [] [] []) 0 [].

(** The same user after a credit of 500 and a debit of 200. *)
Definition ledgerWorld : World :=
  mkWorld
    (mkStore [User.mk 1 "+1555" None]
       [Transaction.mk 1 500%float "credit" None None (Some "mom") 10%Z 1;
        Transaction.mk 2 200%float "debit" None (Some "food") None 20%Z 1]
       [Credit.mk 1 500%float (Some "mom") None 10%Z 1]
       [Debit.mk 1 200%float (Some "food") None 20%Z 1])
    0 [].

(** ** The handlers as a state machine *)

(** A request to one of the handlers. *)
Inductive Call : Type :=
  | CallProcessTransaction (text userPhone : string)
  | CallQueryTransactions (question userPhone : string)
  | CallGetTransactions (userPhone : string)
  | CallGetTransactionSummary (userPhone : string)
  | CallGetUserCredits (userPhone : string)
  | CallGetUserDebits (userPhone : string)
  | CallGetTransactionsByCategory (userPhone category : string)
  | CallCreateUser (userPhone : string) (name : option string).

(** The world after a request was handled. *)
Definition perform `{runtime : Runtime} (call : Call) (w : World) : World :=
  match call with
  | CallProcessTransaction text userPhone =>
      (transactionController.processTransaction text userPhone w).2
  | CallQueryTransactions question userPhone =>
      (transactionController.queryTransactions question userPhone w).2
  | CallGetTransactions userPhone =>
      (transactionController.getTransactions userPhone w).2
  | CallGetTransactionSummary userPhone =>
      (transactionController.getTransactionSummary userPhone w).2
  | CallGetUserCredits userPhone =>
      (transactionController.getUserCredits userPhone w).2
  | CallGetUserDebits userPhone =>
      (transactionController.getUserDebits userPhone w).2
  | CallGetTransactionsByCategory userPhone category =>
      (transactionController.getTransactionsByCategory userPhone category w).2
  | CallCreateUser userPhone name =>
      (usersController.createUser userPhone name w).2
  end.

(** The worlds the handlers can bring about, starting on an empty store;
    the collaborators may behave differently from one request to the next. *)
Inductive Reachable : World → Prop :=
  | reachable_start : Reachable emptyWorld
  | reachable_call (runtime : Runtime) (call : Call) (w : World) :
      Reachable w → Reachable (perform call w).

(** A unified row that the credit, respectively the debit ledger mirrors. *)
Definition isCredit (t : Transaction.t) : Prop :=
  toLowerCase (Transaction.type t) = "credit".

Definition isDebit (t : Transaction.t) : Prop :=
  toLowerCase (Transaction.type t) = "debit".

#[global] Instance isCredit_dec t : Decision (isCredit t) :=
  decide (toLowerCase (Transaction.type t) = "credit").

#[global] Instance isDebit_dec t : Decision (isDebit t) :=
  decide (toLowerCase (Transaction.type t) = "debit").

(** What a credit row says, apart from its id, and the same read off a
    unified row. *)
Definition creditFields (c : Credit.t)
    : float * option string * option string * Date * nat :=
  (Credit.amount c, Credit.source c, Credit.description c, Credit.date c,
   Credit.userId c).

Definition creditFieldsOf (t : Transaction.t)
    : float * option string * option string * Date * nat :=
  (Transaction.amount t, Transaction.source t, Transaction.description t,
   Transaction.date t, Transaction.userId t).

Definition debitFields (d : Debit.t)
    : float * option string * option string * Date * nat :=
  (Debit.amount d, Debit.category d, Debit.description d, Debit.date d,
   Debit.userId d).

Definition debitFieldsOf (t : Transaction.t)
    : float * option string * option string * Date * nat :=
  (Transaction.amount t, Transaction.category t, Transaction.description t,
   Transaction.date t, Transaction.userId t).

(** A store in good order: phones identify users, ids identify rows, every
    ledger row belongs to a user, and the two type-specific ledgers mirror,
    row by row and in order, the credit and debit rows of the unified one. *)
Record Consistent (s : Store) : Prop := mkConsistent {
  phones_unique : NoDup (User.phone <$> users s);
  phones_nonempty : ∀ u, u ∈ users s → User.phone u ≠ "";
  user_ids_unique : NoDup (User.id <$> users s);
  transaction_ids_unique : NoDup (Transaction.id <$> transactions s);
  credit_ids_unique : NoDup (Credit.id <$> credits s);
  debit_ids_unique : NoDup (Debit.id <$> debits s);
  transactions_owned :
    ∀ t, t ∈ transactions s → ∃ u, u ∈ users s ∧ User.id u = Transaction.userId t;
  credits_mirror :
    creditFields <$> credits s
    = creditFieldsOf <$> filter isCredit (transactions s);
  debits_mirror :
    debitFields <$> debits s
    = debitFieldsOf <$> filter isDebit (transactions s)
}.

(** A Prisma unique-constraint error, and an error of the program itself. *)
Definition duplicatePhoneError : errorHandler.Err :=
  errorHandler.mkErr errorHandler.PrismaClientKnownRequestError
    "PrismaClientKnownRequestError"
    "Unique constraint failed on the fields: (`phone`)"
    (Some "PrismaClientKnownRequestError: ... at processTransaction")
    (Some "P2002")
    (Some (errorHandler.mkMeta (Some ["phone"]) None)).

Definition typeError : errorHandler.Err :=
  errorHandler.mkErr errorHandler.OtherError "TypeError"
    "analysis.type.toLowerCase is not a function"
    (Some "TypeError: ... at processTransaction") None None.

(** A request that names its user in the query string only. *)
Definition searchRequest : Request := mkRequest "" "" "" "+1555".

(** The world after "received 500 from mom" was recorded for a new phone,
    and a world whose clock has been read 24 times. *)
Definition momWorld : World :=
  perform (runtime := momRuntime)
    (CallProcessTransaction "received 500 from mom" "+1555") emptyWorld.

Definition lateWorld : World := mkWorld emptyStore 24 [].

(** * Verification *)

(** ** Basic facts on values, the monad and the store *)

Lemma truthy_string_spec (s : string) : truthy s = true ↔ s ≠ "".
Proof.
  unfold truthy, string_truthy.
  destruct (String.eqb_spec s ""); simpl; split; congruence.
Qed.

Lemma falsy_string_spec (s : string) : truthy s = false ↔ s = "".
Proof.
  unfold truthy, string_truthy.
  destruct (String.eqb_spec s ""); simpl; split; congruence.
Qed.

Lemma toLowerCase_nonempty (s : string) :
  toLowerCase s ≠ "" → truthy s = true.
Proof. destruct s; simpl; [congruence | reflexivity]. Qed.

(** Running a handler to its result and its final world. *)
Ltac run :=
  cbv beta iota zeta delta
    [mbind M_bind mret M_ret prisma.read prisma.write
     prisma.user_findUnique prisma.user_create prisma.transaction_create
     prisma.credit_create prisma.debit_create prisma.transaction_findMany
     prisma.credit_findMany prisma.debit_findMany
     newDate ai_generateContent].

(** Reading the fields of an explicit world. *)
Ltac fields :=
  cbn [db ticks aiCalls users transactions credits debits fst snd].

Section Analyzer.
Context `{runtime : Runtime}.

(** The analyzer reads no table and writes none, and calls the model once. *)
Lemma analyzeTransaction_world (text userPhone : string) (w : World) :
  let w' := snd (geminiClient.analyzeTransaction text userPhone w) in
  db w' = db w ∧ aiCalls w' = aiCalls w ++ [AnalyzePrompt text].
Proof.
  unfold geminiClient.analyzeTransaction, geminiClient.analyzeTransaction_try.
  destruct w as [s n calls]. run. fields.
  destruct (generateContent (AnalyzePrompt text)) as [e | [resultText |]];
    [easy | | easy].
  destruct (JSON_parse_analysis resultText) as [e | | jsonResponse]; [easy | easy |].
  destruct (truthy (TransactionAnalysis.date jsonResponse)); easy.
Qed.

End Analyzer.

Section AnalyzerFailures.
Context `{runtime : Runtime}.

(** The [try] block of the analyzer throws exactly on an internal failure. *)
Lemma analyzeTransaction_try_throws (text : string) (w : World) (e : JsError) :
  (geminiClient.analyzeTransaction_try text w).1 = Throw e ↔ AnalysisFails text e.
Proof.
  unfold geminiClient.analyzeTransaction_try. run.
  split.
  - destruct (generateContent (AnalyzePrompt text)) as [e' | [resultText |]] eqn:Hgen.
    + simpl. intros [= <-]. by apply AnalysisGenerationError.
    + destruct (JSON_parse_analysis resultText) as [e' | | jsonResponse] eqn:Hparse.
      * simpl. intros [= <-]. by eapply AnalysisUnparseable.
      * simpl. intros [= <-]. by eapply AnalysisNull.
      * destruct (truthy (TransactionAnalysis.date jsonResponse)); discriminate.
    + simpl. intros [= <-]. by apply AnalysisNoText.
  - intros [e' Hgen | Hgen | resultText e' Hgen Hparse | resultText Hgen Hparse];
      rewrite Hgen; try rewrite Hparse; reflexivity.
Qed.

(** On an internal failure the analyzer returns the object of its [catch]
    block, dated with the one clock reading it makes. *)
Lemma analyzeTransaction_degraded (text userPhone : string) (w : World)
    (e : JsError) :
  AnalysisFails text e →
  geminiClient.analyzeTransaction text userPhone w
  = (geminiClient.degradedAnalysis text (clock (ticks w)) e,
     mkWorld (db w) (S (ticks w)) (aiCalls w ++ [AnalyzePrompt text])).
Proof.
  unfold geminiClient.analyzeTransaction, geminiClient.analyzeTransaction_try.
  run.
  intros [e' Hgen | Hgen | resultText e' Hgen Hparse | resultText Hgen Hparse];
    rewrite Hgen; try rewrite Hparse; reflexivity.
Qed.

(** On an internal failure the query engine returns the object of its
    [catch] block. *)
Lemma queryTransactions_degraded (question userPhone : string)
    (transactions : list Transaction.t) (w : World) (e : JsError) :
  QueryFails question transactions e →
  geminiClient.queryTransactions question transactions userPhone w
  = (geminiClient.degradedAnswer e,
     mkWorld (db w) (ticks w)
       (aiCalls w ++ [QueryPrompt question transactions])).
Proof.
  unfold geminiClient.queryTransactions, geminiClient.queryTransactions_try.
  run.
  intros [e' Hgen | Hgen | resultText e' Hgen Hparse | resultText Hgen Hparse];
    rewrite Hgen; try rewrite Hparse; reflexivity.
Qed.

(** When the model's text parses to an object, every field of the result is
    set, by the model or by its default. *)
Lemma queryTransactions_parsed (question userPhone resultText : string)
    (transactions : list Transaction.t) (w : World)
    (jsonResponse : QueryAnswer.t) :
  generateContent (QueryPrompt question transactions)
  = Resolves (Some resultText) →
  JSON_parse_answer resultText = ParsedObject jsonResponse →
  (geminiClient.queryTransactions question transactions userPhone w).1
  = {| QueryAnswer.answer :=
         Some (orElse (QueryAnswer.answer jsonResponse)
                 "I couldn't analyze your transactions properly.");
       QueryAnswer.insights :=
         Some (orElse (QueryAnswer.insights jsonResponse) []);
       QueryAnswer.suggestedCategories :=
         Some (orElse (QueryAnswer.suggestedCategories jsonResponse) []);
       QueryAnswer.relevantTransactions :=
         Some (orElse (QueryAnswer.relevantTransactions jsonResponse) []);
       QueryAnswer.totalAmount :=
         Some (orElse (QueryAnswer.totalAmount jsonResponse) 0%float);
       QueryAnswer.error := None |}.
Proof.
  intros Hgen Hparse.
  unfold geminiClient.queryTransactions, geminiClient.queryTransactions_try.
  run. rewrite Hgen, Hparse. reflexivity.
Qed.

End AnalyzerFailures.

Section StoreFacts.

(** A user appended under a phone nobody has is the one found for it. *)
Lemma lookupUser_created (userPhone : string) (s : Store) (user : User.t)
    (ts : list Transaction.t) (cs : list Credit.t) (ds : list Debit.t) :
  prisma.lookupUser userPhone s = None →
  User.phone user = userPhone →
  prisma.lookupUser userPhone (mkStore (users s ++ [user]) ts cs ds) = Some user.
Proof.
  unfold prisma.lookupUser. simpl. intros Hnone Hphone.
  induction (users s) as [| u us IH]; simpl in *.
  - rewrite Hphone, String.eqb_refl. reflexivity.
  - destruct (String.eqb (User.phone u) userPhone); [discriminate | auto].
Qed.

(** The user found for a phone has that phone and is a row of the table. *)
Lemma lookupUser_Some (userPhone : string) (s : Store) (user : User.t) :
  prisma.lookupUser userPhone s = Some user →
  User.phone user = userPhone ∧ user ∈ users s.
Proof.
  unfold prisma.lookupUser. intros Hfind.
  apply List.find_some in Hfind as [Hin Heq].
  split; [by apply String.eqb_eq | by apply list_elem_of_In].
Qed.

(** No user found for a phone: no row has it. *)
Lemma lookupUser_None (userPhone : string) (s : Store) :
  prisma.lookupUser userPhone s = None →
  ∀ user, user ∈ users s → User.phone user ≠ userPhone.
Proof.
  unfold prisma.lookupUser. intros Hfind user Hin Heq.
  apply list_elem_of_In in Hin.
  pose proof (List.find_none _ _ Hfind user Hin) as Hneq. simpl in Hneq.
  rewrite Heq, String.eqb_refl in Hneq. discriminate.
Qed.

(** A user owns no transaction exactly when the ordered query for the
    user's transactions comes back empty. *)
Lemma transactionsOf_nil (userId : nat) (s : Store) :
  prisma.transactionsOf userId s = []
  ↔ ∀ t, t ∈ transactions s → Transaction.userId t ≠ userId.
Proof.
  unfold prisma.transactionsOf.
  set (owned := filter (λ t, Transaction.userId t = userId) (transactions s)).
  assert (Hlen : length (merge_sort prisma.dateDesc owned) = length owned)
    by (apply Permutation_length, merge_sort_Permutation).
  split.
  - intros Hnil t Hin Hown.
    rewrite Hnil in Hlen. symmetry in Hlen. apply nil_length_inv in Hlen.
    assert (t ∈ owned) as Ht by (apply list_elem_of_filter; by split).
    rewrite Hlen in Ht. by apply not_elem_of_nil in Ht.
  - intros Hnone. apply nil_length_inv. rewrite Hlen.
    destruct owned as [| t rest] eqn:Howned; [reflexivity |].
    assert (t ∈ owned) as Ht by (rewrite Howned; left).
    apply list_elem_of_filter in Ht as [Hown Hin]. by destruct (Hnone t Hin).
Qed.

(** The reduction of the summary adds the amounts up from the left. *)
Lemma sumAmounts_sum {A} (amount : A → float) (rows : list A) :
  transactionController.sumAmounts amount rows = sum (amount <$> rows).
Proof.
  unfold transactionController.sumAmounts, sum.
  generalize 0%float as acc.
  induction rows as [| row rows IH]; intros acc; simpl; [reflexivity | apply IH].
Qed.

End StoreFacts.

Section Process.
Context `{runtime : Runtime}.

Import transactionController.

(** Past the two validations, [processTransaction] is the persistence part
    run in the world the analyzer leaves. *)
Lemma processTransaction_valid (text userPhone : string) (w w1 : World)
    (analysis : TransactionAnalysis.t) (type : string) (amount : float) :
  truthy text = true → truthy userPhone = true →
  geminiClient.analyzeTransaction text userPhone w = (analysis, w1) →
  TransactionAnalysis.type analysis = Some type → truthy type = true →
  TransactionAnalysis.amount analysis = Some amount → truthy amount = true →
  processTransaction text userPhone w
  = persistTransaction userPhone analysis type amount w1.
Proof.
  intros Htext Hphone Hrun Htype Htruthy Hamount Hnonzero.
  unfold processTransaction. rewrite Htext, Hphone. simpl.
  unfold mbind, M_bind. rewrite Hrun, Htype, Hamount, Htruthy, Hnonzero.
  reflexivity.
Qed.

(** An analysis whose [type] or [amount] is falsy ends the request with 422
    in the world the analyzer leaves. *)
Lemma processTransaction_invalid (text userPhone : string) (w w1 : World)
    (analysis : TransactionAnalysis.t) :
  truthy text = true → truthy userPhone = true →
  geminiClient.analyzeTransaction text userPhone w = (analysis, w1) →
  truthy (TransactionAnalysis.type analysis) = false
  ∨ truthy (TransactionAnalysis.amount analysis) = false →
  processTransaction text userPhone w
  = (mkResponse 422
       (ProcessFailure "Could not clearly analyze the transaction"
          (Some analysis)), w1).
Proof.
  intros Htext Hphone Hrun Hfalsy.
  unfold processTransaction. rewrite Htext, Hphone. simpl.
  unfold mbind, M_bind. rewrite Hrun.
  destruct (TransactionAnalysis.type analysis) as [type |],
           (TransactionAnalysis.amount analysis) as [amount |];
    try reflexivity.
  change (truthy (Some type)) with (truthy type) in Hfalsy.
  change (truthy (Some amount)) with (truthy amount) in Hfalsy.
  destruct Hfalsy as [-> | ->]; [reflexivity |].
  destruct (truthy type); reflexivity.
Qed.

(** What the persistence part does, table by table. *)
Lemma persistTransaction_spec (userPhone : string)
    (analysis : TransactionAnalysis.t) (type : string) (amount : float)
    (w : World) :
  let s := db w in
  let user := resolvedUser userPhone s in
  let d := normalizedDate analysis w in
  let t := Transaction.mk (prisma.freshId Transaction.id (transactions s))
             amount type
             (orNull (TransactionAnalysis.description analysis))
             (orNull (TransactionAnalysis.category analysis))
             (orNull (TransactionAnalysis.source analysis))
             d (User.id user) in
  let c := Credit.mk (prisma.freshId Credit.id (credits s)) amount
             (orNull (TransactionAnalysis.source analysis))
             (orNull (TransactionAnalysis.description analysis))
             d (User.id user) in
  let b := Debit.mk (prisma.freshId Debit.id (debits s)) amount
             (orNull (TransactionAnalysis.category analysis))
             (orNull (TransactionAnalysis.description analysis))
             d (User.id user) in
  ∃ (specific : option SpecificTransaction) (w' : World),
    persistTransaction userPhone analysis type amount w
    = (mkResponse 201
         (ProcessData t specific
            (mkCondensed (TransactionAnalysis.confidence analysis)
               (TransactionAnalysis.category analysis)
               (TransactionAnalysis.source analysis) d)), w')
    ∧ users (db w')
      = match prisma.lookupUser userPhone s with
        | Some _ => users s
        | None => users s ++ [user]
        end
    ∧ transactions (db w') = transactions s ++ [t]
    ∧ aiCalls w' = aiCalls w
    ∧ (if String.eqb (toLowerCase type) "credit" then
         specific = Some (CreditRow c)
         ∧ credits (db w') = credits s ++ [c] ∧ debits (db w') = debits s
       else if String.eqb (toLowerCase type) "debit" then
         specific = Some (DebitRow b)
         ∧ credits (db w') = credits s ∧ debits (db w') = debits s ++ [b]
       else
         specific = None
         ∧ credits (db w') = credits s ∧ debits (db w') = debits s).
Proof.
  destruct w as [[us ts cs ds] n calls].
  unfold persistTransaction, saveSpecific, parseTransactionDate,
    resolvedUser, normalizedDate.
  run. fields.
  destruct (prisma.lookupUser userPhone (mkStore us ts cs ds)) as [user |];
    (destruct (newDateOf (TransactionAnalysis.date analysis)) as [d |]);
    (destruct (String.eqb (toLowerCase type) "credit");
       [| destruct (String.eqb (toLowerCase type) "debit")]);
    eexists; eexists; repeat split; reflexivity.
Qed.

(** The degraded analysis never passes validation: its amount is [0]. *)
Lemma processTransaction_rejects_degraded (text userPhone : string) (w : World)
    (e : JsError) :
  truthy text = true → truthy userPhone = true →
  AnalysisFails text e →
  processTransaction text userPhone w
  = (mkResponse 422
       (ProcessFailure "Could not clearly analyze the transaction"
          (Some (geminiClient.degradedAnalysis text (clock (ticks w)) e))),
     mkWorld (db w) (S (ticks w)) (aiCalls w ++ [AnalyzePrompt text])).
Proof.
  intros Htext Hphone Hfails.
  apply processTransaction_invalid; try done.
  - by apply analyzeTransaction_degraded.
  - right. reflexivity.
Qed.

(** Nor does an amount of zero, whatever the type. *)
Lemma processTransaction_rejects_zero_amount (text userPhone : string)
    (w w1 : World) (analysis : TransactionAnalysis.t) :
  truthy text = true → truthy userPhone = true →
  geminiClient.analyzeTransaction text userPhone w = (analysis, w1) →
  TransactionAnalysis.amount analysis = Some 0%float →
  processTransaction text userPhone w
  = (mkResponse 422
       (ProcessFailure "Could not clearly analyze the transaction"
          (Some analysis)), w1).
Proof.
  intros Htext Hphone Hrun Hzero.
  apply processTransaction_invalid; try done.
  right. rewrite Hzero. reflexivity.
Qed.

End Process.

Section QueryFacts.
Context `{runtime : Runtime}.

Import transactionController.

(** A query naming a phone nobody has ends with 404 in an unchanged world. *)
Lemma queryTransactions_absent (question userPhone : string) (w : World) :
  truthy question = true → truthy userPhone = true →
  prisma.lookupUser userPhone (db w) = None →
  queryTransactions question userPhone w
  = (mkResponse 404 (QueryFailure "User not found"), w).
Proof.
  intros Hquestion Hphone Habsent.
  unfold queryTransactions. rewrite Hquestion, Hphone. simpl.
  run. rewrite Habsent. reflexivity.
Qed.

(** A query of a user without transactions ends early in an unchanged world. *)
Lemma queryTransactions_early (question userPhone : string) (w : World)
    (user : User.t) :
  truthy question = true → truthy userPhone = true →
  prisma.lookupUser userPhone (db w) = Some user →
  prisma.transactionsOf (User.id user) (db w) = [] →
  queryTransactions question userPhone w
  = (mkResponse 200 (QueryEarly "You don't have any transactions yet."), w).
Proof.
  intros Hquestion Hphone Hfound Hnone.
  unfold queryTransactions. rewrite Hquestion, Hphone. simpl.
  run. rewrite Hfound, Hnone. reflexivity.
Qed.

(** A query of a user with transactions is answered by the query engine. *)
Lemma queryTransactions_delegates (question userPhone : string) (w : World)
    (user : User.t) :
  truthy question = true → truthy userPhone = true →
  prisma.lookupUser userPhone (db w) = Some user →
  prisma.transactionsOf (User.id user) (db w) ≠ [] →
  queryTransactions question userPhone w
  = let transactions := prisma.transactionsOf (User.id user) (db w) in
    let (analysis, w') :=
      geminiClient.queryTransactions question transactions userPhone w in
    (mkResponse 200
       (QueryData (QueryAnswer.answer analysis)
          (QueryAnswer.insights analysis)
          (QueryAnswer.suggestedCategories analysis)
          (orElse (QueryAnswer.relevantTransactions analysis) [])
          (orElse (QueryAnswer.totalAmount analysis) 0%float)
          (length transactions)), w').
Proof.
  intros Hquestion Hphone Hfound Hsome.
  unfold queryTransactions. rewrite Hquestion, Hphone. simpl.
  unfold mbind at 1, M_bind at 1, prisma.user_findUnique, prisma.read.
  rewrite Hfound.
  unfold mbind at 1, M_bind at 1, prisma.transaction_findMany, prisma.read.
  destruct (prisma.transactionsOf (User.id user) (db w)) as [| t rest];
    [congruence |].
  reflexivity.
Qed.

End QueryFacts.

Section CreateUserFacts.

Import usersController.

(** [createUser] for a phone somebody has: 400, nothing written. *)
Lemma createUser_duplicate (userPhone : string) (name : option string)
    (w : World) (user : User.t) :
  truthy userPhone = true →
  prisma.lookupUser userPhone (db w) = Some user →
  createUser userPhone name w
  = (mkResponse 400
       (CreateUserFailure "User with this phone number already exists"), w).
Proof.
  intros Hphone Hfound. unfold createUser. rewrite Hphone. simpl.
  run. rewrite Hfound. reflexivity.
Qed.

(** [createUser] for a phone nobody has: 201, one row appended. *)
Lemma createUser_fresh (userPhone : string) (name : option string) (w : World) :
  truthy userPhone = true →
  prisma.lookupUser userPhone (db w) = None →
  let user := User.mk (prisma.freshId User.id (users (db w))) userPhone
                (orNull name) in
  createUser userPhone name w
  = (mkResponse 201 (CreateUserData "User created successfully" user),
     mkWorld (mkStore (users (db w) ++ [user]) (transactions (db w))
                (credits (db w)) (debits (db w)))
       (ticks w) (aiCalls w)).
Proof.
  intros Hphone Habsent. unfold createUser. rewrite Hphone. simpl.
  run. rewrite Habsent. reflexivity.
Qed.

End CreateUserFacts.

Section MiddlewareFacts.

(** Behind [checkUserExists] a handler only runs for a registered phone. *)
Lemma checkUserExists_absent {B} (failure : string → B) (userPhone : string)
    (next : User.t → M (Response B)) (w : World) :
  truthy userPhone = true →
  prisma.lookupUser userPhone (db w) = None →
  middleware.checkUserExists failure userPhone next w
  = (mkResponse 404 (failure "User not found. Please register first."), w).
Proof.
  intros Hphone Habsent. unfold middleware.checkUserExists.
  rewrite Hphone. simpl. run. rewrite Habsent. reflexivity.
Qed.

Lemma checkUserExists_present {B} (failure : string → B) (userPhone : string)
    (next : User.t → M (Response B)) (w : World) (user : User.t) :
  truthy userPhone = true →
  prisma.lookupUser userPhone (db w) = Some user →
  middleware.checkUserExists failure userPhone next w = next user w.
Proof.
  intros Hphone Hfound. unfold middleware.checkUserExists.
  rewrite Hphone. simpl. run. rewrite Hfound. reflexivity.
Qed.

End MiddlewareFacts.

(** ** The claims *)

Section Claims.
Context `{runtime : Runtime}.

Import transactionController.

(** C1. For a request with non-empty [text] and [userPhone] whose analysis
    has a type that lower-cases to ['credit'] or ['debit'] and a truthy
    amount, [processTransaction] appends exactly one row to the unified
    table and exactly one row to the table of that type, leaves the other
    type's table alone, and answers 201 with both rows, which carry the
    amount of the analysis and the same normalized date. *)
Theorem process_creates_transaction_and_matching_row
    (text userPhone : string) (w w1 : World)
    (analysis : TransactionAnalysis.t) (type : string) (amount : float) :
  truthy text = true → truthy userPhone = true →
  geminiClient.analyzeTransaction text userPhone w = (analysis, w1) →
  TransactionAnalysis.type analysis = Some type →
  toLowerCase type = "credit" ∨ toLowerCase type = "debit" →
  TransactionAnalysis.amount analysis = Some amount → truthy amount = true →
  ∃ (t : Transaction.t) (specific : SpecificTransaction)
    (echo : CondensedAnalysis) (w' : World),
    processTransaction text userPhone w
    = (mkResponse 201 (ProcessData t (Some specific) echo), w')
    ∧ transactions (db w') = transactions (db w) ++ [t]
    ∧ Transaction.amount t = amount
    ∧ Transaction.date t = normalizedDate analysis w1
    ∧ c_date echo = normalizedDate analysis w1
    ∧ match specific with
      | CreditRow c =>
          toLowerCase type = "credit"
          ∧ credits (db w') = credits (db w) ++ [c]
          ∧ debits (db w') = debits (db w)
          ∧ Credit.amount c = amount
          ∧ Credit.date c = normalizedDate analysis w1
      | DebitRow b =>
          toLowerCase type = "debit"
          ∧ debits (db w') = debits (db w) ++ [b]
          ∧ credits (db w') = credits (db w)
          ∧ Debit.amount b = amount
          ∧ Debit.date b = normalizedDate analysis w1
      end.
Proof.
  intros Htext Hphone Hrun Htype Hlower Hamount Hnonzero.
  assert (truthy type = true) as Htruthy
    by (apply toLowerCase_nonempty; destruct Hlower as [-> | ->]; discriminate).
  rewrite (processTransaction_valid _ _ _ _ _ _ _
             Htext Hphone Hrun Htype Htruthy Hamount Hnonzero).
  pose proof (analyzeTransaction_world text userPhone w) as [Hdb _].
  rewrite Hrun in Hdb. simpl in Hdb.
  pose proof (persistTransaction_spec userPhone analysis type amount w1) as Hspec.
  cbv zeta in Hspec. rewrite Hdb in Hspec.
  destruct Hspec as (specific & w' & Hrun' & _ & Hts & _ & Hspecific).
  destruct Hlower as [Hlower | Hlower]; rewrite Hlower in Hspecific;
    simpl in Hspecific; destruct Hspecific as (-> & Hcs & Hds);
    do 4 eexists; (split; [exact Hrun' |]); repeat split; assumption.
Qed.

(** C4. When the analysis passed validation but its type lower-cases to
    neither ['credit'] nor ['debit'], [processTransaction] still appends the
    unified row, with the type string exactly as the analyzer returned it,
    and creates no row in either type-specific table; the 201 response
    carries no specific row. *)
Theorem process_other_type_creates_no_specific_row
    (text userPhone : string) (w w1 : World)
    (analysis : TransactionAnalysis.t) (type : string) (amount : float) :
  truthy text = true → truthy userPhone = true →
  geminiClient.analyzeTransaction text userPhone w = (analysis, w1) →
  TransactionAnalysis.type analysis = Some type → truthy type = true →
  toLowerCase type ≠ "credit" → toLowerCase type ≠ "debit" →
  TransactionAnalysis.amount analysis = Some amount → truthy amount = true →
  ∃ (t : Transaction.t) (echo : CondensedAnalysis) (w' : World),
    processTransaction text userPhone w
    = (mkResponse 201 (ProcessData t None echo), w')
    ∧ transactions (db w') = transactions (db w) ++ [t]
    ∧ Transaction.type t = type
    ∧ Transaction.amount t = amount
    ∧ credits (db w') = credits (db w)
    ∧ debits (db w') = debits (db w).
Proof.
  intros Htext Hphone Hrun Htype Htruthy Hcredit Hdebit Hamount Hnonzero.
  rewrite (processTransaction_valid _ _ _ _ _ _ _
             Htext Hphone Hrun Htype Htruthy Hamount Hnonzero).
  pose proof (analyzeTransaction_world text userPhone w) as [Hdb _].
  rewrite Hrun in Hdb. simpl in Hdb.
  pose proof (persistTransaction_spec userPhone analysis type amount w1) as Hspec.
  cbv zeta in Hspec. rewrite Hdb in Hspec.
  destruct Hspec as (specific & w' & Hrun' & _ & Hts & _ & Hspecific).
  apply String.eqb_neq in Hcredit, Hdebit.
  rewrite Hcredit, Hdebit in Hspecific.
  destruct Hspecific as (-> & Hcs & Hds).
  do 3 eexists. split; [exact Hrun' |]. repeat split; assumption.
Qed.

(** C2. For a request with non-empty [text] and [userPhone] whose analysis
    has a falsy type or a falsy amount, [processTransaction] answers 422
    with that analysis as [partialAnalysis] and leaves the three ledgers as
    they were. *)
Theorem process_rejects_falsy_analysis
    (text userPhone : string) (w w1 : World) (analysis : TransactionAnalysis.t) :
  truthy text = true → truthy userPhone = true →
  geminiClient.analyzeTransaction text userPhone w = (analysis, w1) →
  truthy (TransactionAnalysis.type analysis) = false
  ∨ truthy (TransactionAnalysis.amount analysis) = false →
  ∃ w' : World,
    processTransaction text userPhone w
    = (mkResponse 422
         (ProcessFailure "Could not clearly analyze the transaction"
            (Some analysis)), w')
    ∧ transactions (db w') = transactions (db w)
    ∧ credits (db w') = credits (db w)
    ∧ debits (db w') = debits (db w).
Proof.
  intros Htext Hphone Hrun Hfalsy.
  pose proof (analyzeTransaction_world text userPhone w) as [Hdb _].
  rewrite Hrun in Hdb. simpl in Hdb.
  exists w1. rewrite Hdb.
  split; [by apply processTransaction_invalid | done].
Qed.

(** C9. Whenever [processTransaction] answers 422, the persisted state is
    the one it started from: the users table included, so that a phone
    unknown before the request is still unknown after it. *)
Theorem process_422_leaves_store_unchanged
    (text userPhone : string) (w w' : World) (response : Response ProcessBody) :
  processTransaction text userPhone w = (response, w') →
  status response = 422 →
  db w' = db w
  ∧ users (db w') = users (db w)
  ∧ prisma.lookupUser userPhone (db w') = prisma.lookupUser userPhone (db w).
Proof.
  intros Hrun Hstatus.
  enough (db w' = db w) as -> by done.
  destruct (truthy text) eqn:Htext; [destruct (truthy userPhone) eqn:Hphone |].
  - destruct (geminiClient.analyzeTransaction text userPhone w)
      as [analysis w1] eqn:Hanalysis.
    pose proof (analyzeTransaction_world text userPhone w) as [Hdb _].
    rewrite Hanalysis in Hdb. simpl in Hdb.
    destruct (truthy (TransactionAnalysis.type analysis)) eqn:Htype;
      [destruct (truthy (TransactionAnalysis.amount analysis)) eqn:Hamount |].
    + destruct (TransactionAnalysis.type analysis) as [type |] eqn:Hty;
        [| discriminate].
      destruct (TransactionAnalysis.amount analysis) as [amount |] eqn:Hamt;
        [| discriminate].
      rewrite (processTransaction_valid _ _ _ _ _ _ _
                 Htext Hphone Hanalysis Hty Htype Hamt Hamount) in Hrun.
      pose proof (persistTransaction_spec userPhone analysis type amount w1)
        as Hspec.
      cbv zeta in Hspec. destruct Hspec as (specific & w2 & Hrun' & _).
      rewrite Hrun' in Hrun. injection Hrun as <- <-. discriminate.
    + rewrite (processTransaction_invalid _ _ _ _ _ Htext Hphone Hanalysis)
        in Hrun by (by right).
      by injection Hrun as <- <-.
    + rewrite (processTransaction_invalid _ _ _ _ _ Htext Hphone Hanalysis)
        in Hrun by (by left).
      by injection Hrun as <- <-.
  - unfold processTransaction in Hrun. rewrite Htext, Hphone in Hrun.
    simpl in Hrun. injection Hrun as <- <-. discriminate.
  - unfold processTransaction in Hrun. rewrite Htext in Hrun.
    simpl in Hrun. injection Hrun as <- <-. discriminate.
Qed.

(** C7. The same phone, unknown to the store, at the two entry points: a
    valid [processTransaction] request whose analysis passes validation
    creates the user, with the phone and no name, and answers 201; a
    [queryTransactions] request answers 404 and leaves the world as it was,
    store and model calls alike. *)
Theorem user_resolution_diverges_by_entry_point
    (text question userPhone : string) (w w1 : World)
    (analysis : TransactionAnalysis.t) (type : string) (amount : float) :
  truthy text = true → truthy question = true → truthy userPhone = true →
  geminiClient.analyzeTransaction text userPhone w = (analysis, w1) →
  TransactionAnalysis.type analysis = Some type → truthy type = true →
  TransactionAnalysis.amount analysis = Some amount → truthy amount = true →
  prisma.lookupUser userPhone (db w) = None →
  (∃ (response : Response ProcessBody) (w' : World) (user : User.t),
     processTransaction text userPhone w = (response, w')
     ∧ status response = 201
     ∧ users (db w') = users (db w) ++ [user]
     ∧ User.phone user = userPhone
     ∧ User.name user = None
     ∧ prisma.lookupUser userPhone (db w') = Some user)
  ∧ queryTransactions question userPhone w
    = (mkResponse 404 (QueryFailure "User not found"), w).
Proof.
  intros Htext Hquestion Hphone Hrun Htype Htruthy Hamount Hnonzero Habsent.
  split; [| by apply queryTransactions_absent].
  rewrite (processTransaction_valid _ _ _ _ _ _ _
             Htext Hphone Hrun Htype Htruthy Hamount Hnonzero).
  pose proof (analyzeTransaction_world text userPhone w) as [Hdb _].
  rewrite Hrun in Hdb. simpl in Hdb.
  pose proof (persistTransaction_spec userPhone analysis type amount w1) as Hspec.
  cbv zeta in Hspec. rewrite Hdb in Hspec. unfold resolvedUser in Hspec.
  rewrite Habsent in Hspec.
  destruct Hspec as (specific & w' & Hrun' & Hus & _).
  do 3 eexists. split; [exact Hrun' |].
  split; [reflexivity |]. split; [exact Hus |].
  split; [reflexivity |]. split; [reflexivity |].
  destruct (db w') as [us ts cs ds]. simpl in Hus. subst us.
  by apply lookupUser_created.
Qed.

(** C6. For a request with non-empty [question] and [userPhone] naming an
    existing user who owns no transaction, [queryTransactions] answers 200
    with the canned answer; no model call is made and nothing is written. *)
Theorem query_without_transactions_short_circuits
    (question userPhone : string) (w : World) (user : User.t) :
  truthy question = true → truthy userPhone = true →
  prisma.lookupUser userPhone (db w) = Some user →
  (∀ t, t ∈ transactions (db w) → Transaction.userId t ≠ User.id user) →
  ∃ w' : World,
    queryTransactions question userPhone w
    = (mkResponse 200 (QueryEarly "You don't have any transactions yet."), w')
    ∧ aiCalls w' = aiCalls w
    ∧ db w' = db w.
Proof.
  intros Hquestion Hphone Hfound Hnone.
  exists w. split; [| done].
  apply (queryTransactions_early _ _ _ user); try done.
  by apply transactionsOf_nil.
Qed.

(** C5. For an existing user, [getTransactionSummary] answers 200 with
    [balance] equal to [totalCredit - totalDebit], where [totalDebit] is the
    sum of the amounts of the user's rows of the debit table and
    [totalCredit] the sum of the amounts of the user's rows of the credit
    table; the answer is the same whatever the unified table holds. *)
Theorem summary_balance_is_credit_minus_debit
    (userPhone : string) (w : World) (user : User.t) :
  truthy userPhone = true →
  prisma.lookupUser userPhone (db w) = Some user →
  ∃ data : Summary,
    getTransactionSummary userPhone w = (mkResponse 200 (SummaryData data), w)
    ∧ balance data = (totalCredit data - totalDebit data)%float
    ∧ totalDebit data
      = sum (Debit.amount
               <$> filter (λ d, Debit.userId d = User.id user) (debits (db w)))
    ∧ totalCredit data
      = sum (Credit.amount
               <$> filter (λ c, Credit.userId c = User.id user) (credits (db w)))
    ∧ ∀ ts : list Transaction.t,
        (getTransactionSummary userPhone (withTransactions ts w)).1
        = mkResponse 200 (SummaryData data).
Proof.
  intros Hphone Hfound.
  eexists. split; [| split; [| split; [| split]]].
  - unfold getTransactionSummary. rewrite Hphone. simpl.
    run. rewrite Hfound. reflexivity.
  - reflexivity.
  - simpl. apply sumAmounts_sum.
  - simpl. apply sumAmounts_sum.
  - intros ts. unfold getTransactionSummary. rewrite Hphone. simpl.
    run. unfold withTransactions, prisma.lookupUser in *. fields.
    rewrite Hfound. reflexivity.
Qed.

(** C3. [analyzeTransaction] returns to its caller whatever happens inside
    (its result is a plain analysis, not a completion that could be a
    throw), and on every internal failure (the generation service rejects,
    its result has no text, the text does not parse, or the [try] block
    throws for any reason at all) the analysis returned is the degraded one:
    type ["unknown"], amount [0], the input text as description, category and
    source ["unknown"], the current time printed by [toISOString] as date,
    confidence [0], and the message of the failure as [error]. *)
Theorem analyzeTransaction_degrades_on_failure
    (text userPhone : string) (w : World) (e : JsError) :
  AnalysisFails text e
  ∨ (geminiClient.analyzeTransaction_try text w).1 = Throw e →
  ∃ w' : World,
    geminiClient.analyzeTransaction text userPhone w
    = ({| TransactionAnalysis.type := Some "unknown";
          TransactionAnalysis.amount := Some 0%float;
          TransactionAnalysis.description := Some text;
          TransactionAnalysis.category := Some "unknown";
          TransactionAnalysis.source := Some "unknown";
          TransactionAnalysis.date := Some (toISOString (clock (ticks w)));
          TransactionAnalysis.confidence := Some 0%float;
          TransactionAnalysis.error := Some (message e) |}, w')
    ∧ db w' = db w.
Proof.
  intros Hfails.
  assert (AnalysisFails text e) as Hcause
    by (destruct Hfails; [assumption | by eapply analyzeTransaction_try_throws]).
  rewrite (analyzeTransaction_degraded text userPhone w e Hcause).
  eexists. split; reflexivity.
Qed.

(** C8. Two [createUser] calls in a row for the same non-empty phone: the
    second answers 400 "already exists" and changes nothing; when the phone
    was not registered before, the first answers 201 with the new user, and
    after both calls the users table has grown by that one row. *)
Theorem createUser_twice_rejects_the_second
    (userPhone : string) (name1 name2 : option string) (w w1 w2 : World)
    (r1 r2 : Response CreateUserBody) :
  truthy userPhone = true →
  usersController.createUser userPhone name1 w = (r1, w1) →
  usersController.createUser userPhone name2 w1 = (r2, w2) →
  r2 = mkResponse 400
         (CreateUserFailure "User with this phone number already exists")
  ∧ w2 = w1
  ∧ (prisma.lookupUser userPhone (db w) = None →
     ∃ user : User.t,
       r1 = mkResponse 201 (CreateUserData "User created successfully" user)
       ∧ User.phone user = userPhone
       ∧ User.name user = orNull name1
       ∧ users (db w1) = users (db w) ++ [user]
       ∧ users (db w2) = users (db w) ++ [user]).
Proof.
  intros Hphone Hfirst Hsecond.
  destruct (prisma.lookupUser userPhone (db w)) as [existing |] eqn:Hfound.
  - rewrite (createUser_duplicate _ _ _ existing Hphone Hfound) in Hfirst.
    injection Hfirst as <- <-.
    rewrite (createUser_duplicate _ _ _ existing Hphone Hfound) in Hsecond.
    injection Hsecond as <- <-. done.
  - pose proof (createUser_fresh userPhone name1 w Hphone Hfound) as Hfresh.
    cbv zeta in Hfresh. rewrite Hfresh in Hfirst. injection Hfirst as <- <-.
    set (user := User.mk (prisma.freshId User.id (users (db w))) userPhone
                   (orNull name1)) in *.
    assert (prisma.lookupUser userPhone
              (mkStore (users (db w) ++ [user]) (transactions (db w))
                 (credits (db w)) (debits (db w))) = Some user) as Hnow
      by (by apply lookupUser_created).
    rewrite (createUser_duplicate userPhone name2 _ user Hphone) in Hsecond
      by exact Hnow.
    injection Hsecond as <- <-.
    split; [done |]. split; [done |]. intros _. by exists user.
Qed.

(** C10. When the query engine fails internally, the object it returns has
    the apology as [answer] and the message of the failure as [error], and
    nothing else: [insights], [suggestedCategories], [relevantTransactions]
    and [totalAmount] are undefined (on the success path each of them is
    set, see [queryTransactions_parsed]). The controller then still answers
    200: its [relevantTransactions] is [[]] and its [totalAmount] is [0] by
    its own defaults, while [insights] and [suggestedCategories] stay
    undefined. *)
Theorem query_failure_is_only_partly_defaulted
    (question userPhone : string) (transactions : list Transaction.t)
    (e : JsError) :
  QueryFails question transactions e →
  (∀ w : World, ∃ w' : World,
     geminiClient.queryTransactions question transactions userPhone w
     = ({| QueryAnswer.answer :=
             Some "Sorry, I encountered an error while analyzing your transactions.";
           QueryAnswer.insights := None;
           QueryAnswer.suggestedCategories := None;
           QueryAnswer.relevantTransactions := None;
           QueryAnswer.totalAmount := None;
           QueryAnswer.error := Some (message e) |}, w'))
  ∧ (∀ (w : World) (user : User.t),
       truthy question = true → truthy userPhone = true →
       prisma.lookupUser userPhone (db w) = Some user →
       prisma.transactionsOf (User.id user) (db w) = transactions →
       transactions ≠ [] →
       ∃ w' : World,
         queryTransactions question userPhone w
         = (mkResponse 200
              (QueryData
                 (Some "Sorry, I encountered an error while analyzing your transactions.")
                 None None [] 0%float (length transactions)), w')
         ∧ db w' = db w).
Proof.
  intros Hfails. split.
  - intros w. eexists.
    rewrite (queryTransactions_degraded _ userPhone _ w _ Hfails). reflexivity.
  - intros w user Hquestion Hphone Hfound Hrows Hsome. subst transactions.
    rewrite (queryTransactions_delegates _ _ _ user Hquestion Hphone Hfound Hsome).
    cbv zeta.
    rewrite (queryTransactions_degraded _ userPhone _ w _ Hfails).
    eexists. split; reflexivity.
Qed.

End Claims.

(** ** The claims at work on concrete requests *)

Import transactionController.

(** C1 on "received 500 from mom" from a phone the store has never seen. *)
Lemma process_creates_transaction_and_matching_row_witness :
  ∃ (t : Transaction.t) (specific : SpecificTransaction)
    (echo : CondensedAnalysis) (w' : World),
    processTransaction (runtime := momRuntime)
      "received 500 from mom" "+1555" emptyWorld
    = (mkResponse 201 (ProcessData t (Some specific) echo), w')
    ∧ transactions (db w') = [] ++ [t]
    ∧ Transaction.amount t = 500%float
    ∧ Transaction.date t = 10%Z
    ∧ c_date echo = 10%Z
    ∧ match specific with
      | CreditRow c =>
          "credit" = "credit"
          ∧ credits (db w') = [] ++ [c]
          ∧ debits (db w') = []
          ∧ Credit.amount c = 500%float
          ∧ Credit.date c = 10%Z
      | DebitRow b =>
          "credit" = "debit"
          ∧ debits (db w') = [] ++ [b]
          ∧ credits (db w') = []
          ∧ Debit.amount b = 500%float
          ∧ Debit.date b = 10%Z
      end.
Proof.
  apply (process_creates_transaction_and_matching_row (runtime := momRuntime)
           "received 500 from mom" "+1555" emptyWorld
           (mkWorld emptyStore 0 [AnalyzePrompt "received 500 from mom"])
           momAnalysis "credit" 500%float);
    first [reflexivity | left; reflexivity].
Defined.

(** C2 at the boundary: a valid type with an amount of zero. *)
Lemma process_rejects_falsy_analysis_witness :
  ∃ w' : World,
    processTransaction (runtime := zeroRuntime)
      "paid the landlord" "+1555" emptyWorld
    = (mkResponse 422
         (ProcessFailure "Could not clearly analyze the transaction"
            (Some zeroAnalysis)), w')
    ∧ transactions (db w') = []
    ∧ credits (db w') = []
    ∧ debits (db w') = [].
Proof.
  apply (process_rejects_falsy_analysis (runtime := zeroRuntime)
           "paid the landlord" "+1555" emptyWorld
           (mkWorld emptyStore 0 [AnalyzePrompt "paid the landlord"])
           zeroAnalysis);
    first [reflexivity | right; reflexivity].
Defined.

(** C3 when the generation service rejects the call. *)
Lemma analyzeTransaction_degrades_on_failure_witness :
  ∃ w' : World,
    geminiClient.analyzeTransaction (runtime := failingRuntime)
      "spent 25 on coffee" "+1555" emptyWorld
    = ({| TransactionAnalysis.type := Some "unknown";
          TransactionAnalysis.amount := Some 0%float;
          TransactionAnalysis.description := Some "spent 25 on coffee";
          TransactionAnalysis.category := Some "unknown";
          TransactionAnalysis.source := Some "unknown";
          TransactionAnalysis.date := Some "2025-01-01T00:00:00.000Z";
          TransactionAnalysis.confidence := Some 0%float;
          TransactionAnalysis.error := Some "429 quota exceeded" |}, w')
    ∧ db w' = emptyStore.
Proof.
  apply (analyzeTransaction_degrades_on_failure (runtime := failingRuntime)
           "spent 25 on coffee" "+1555" emptyWorld quotaError).
  left. apply AnalysisGenerationError. reflexivity.
Defined.

(** C4 on an analysis of type ["Transfer"]. *)
Lemma process_other_type_creates_no_specific_row_witness :
  ∃ (t : Transaction.t) (echo : CondensedAnalysis) (w' : World),
    processTransaction (runtime := transferRuntime)
      "moved 120 to savings" "+1555" emptyWorld
    = (mkResponse 201 (ProcessData t None echo), w')
    ∧ transactions (db w') = [] ++ [t]
    ∧ Transaction.type t = "Transfer"
    ∧ Transaction.amount t = 120%float
    ∧ credits (db w') = []
    ∧ debits (db w') = [].
Proof.
  apply (process_other_type_creates_no_specific_row (runtime := transferRuntime)
           "moved 120 to savings" "+1555" emptyWorld
           (mkWorld emptyStore 1 [AnalyzePrompt "moved 120 to savings"])
           (TransactionAnalysis.set_date "2025-01-01T00:00:00.000Z"
              transferAnalysis)
           "Transfer" 120%float);
    first [reflexivity | discriminate].
Defined.

(** C5 after one credit of 500 and one debit of 200. *)
Lemma summary_balance_is_credit_minus_debit_witness :
  ∃ data : Summary,
    getTransactionSummary "+1555" ledgerWorld
    = (mkResponse 200 (SummaryData data), ledgerWorld)
    ∧ balance data = (totalCredit data - totalDebit data)%float
    ∧ totalDebit data = sum [200%float]
    ∧ totalCredit data = sum [500%float]
    ∧ ∀ ts : list Transaction.t,
        (getTransactionSummary "+1555" (withTransactions ts ledgerWorld)).1
        = mkResponse 200 (SummaryData data).
Proof.
  apply (summary_balance_is_credit_minus_debit "+1555" ledgerWorld
           (User.mk 1 "+1555" None));
    reflexivity.
Defined.

(** C6 on a registered user who has recorded nothing. *)
Lemma query_without_transactions_short_circuits_witness :
  ∃ w' : World,
    queryTransactions (runtime := failingRuntime)
      "what's my balance?" "+1555" registeredWorld
    = (mkResponse 200 (QueryEarly "You don't have any transactions yet."), w')
    ∧ aiCalls w' = []
    ∧ db w' = db registeredWorld.
Proof.
  apply (query_without_transactions_short_circuits (runtime := failingRuntime)
           "what's my balance?" "+1555" registeredWorld
           (User.mk 1 "+1555" None));
    try reflexivity.
  intros t Hin. inversion Hin.
Defined.

(** C7 on a phone the empty store does not know. *)
Lemma user_resolution_diverges_by_entry_point_witness :
  (∃ (response : Response ProcessBody) (w' : World) (user : User.t),
     processTransaction (runtime := momRuntime)
       "received 500 from mom" "+1555" emptyWorld = (response, w')
     ∧ status response = 201
     ∧ users (db w') = [] ++ [user]
     ∧ User.phone user = "+1555"
     ∧ User.name user = None
     ∧ prisma.lookupUser "+1555" (db w') = Some user)
  ∧ queryTransactions (runtime := momRuntime)
      "what's my balance?" "+1555" emptyWorld
    = (mkResponse 404 (QueryFailure "User not found"), emptyWorld).
Proof.
  apply (user_resolution_diverges_by_entry_point (runtime := momRuntime)
           "received 500 from mom" "what's my balance?" "+1555" emptyWorld
           (mkWorld emptyStore 0 [AnalyzePrompt "received 500 from mom"])
           momAnalysis "credit" 500%float);
    reflexivity.
Defined.

(** C8 on the empty store: the first call registers the phone, the second
    is turned away. *)
Lemma createUser_twice_rejects_the_second_witness :
  let user := User.mk 1 "+1555" None in
  let r1 := mkResponse 201 (CreateUserData "User created successfully" user) in
  let r2 := mkResponse 400
              (CreateUserFailure "User with this phone number already exists") in
  let w1 := mkWorld (mkStore [user] [] [] []) 0 [] in
  usersController.createUser "+1555" None emptyWorld = (r1, w1)
  ∧ usersController.createUser "+1555" (Some "Asha") w1 = (r2, w1)
  ∧ users (db w1) = [user].
Proof.
  intros user r1 r2 w1.
  split; [reflexivity |]. split; [reflexivity |].
  destruct (createUser_twice_rejects_the_second
              "+1555" None (Some "Asha") emptyWorld w1 w1 r1 r2
              eq_refl eq_refl eq_refl) as (_ & _ & Hfresh).
  destruct (Hfresh eq_refl) as (created & Hcreated & _ & _ & _ & Hrows).
  unfold r1 in Hcreated. injection Hcreated as <-. exact Hrows.
Defined.

(** C9 on the 422 of the zero-amount request: the phone stays unknown. *)
Lemma process_422_leaves_store_unchanged_witness :
  let run := processTransaction (runtime := zeroRuntime)
               "paid the landlord" "+1555" emptyWorld in
  status run.1 = 422
  ∧ db run.2 = db emptyWorld
  ∧ users (db run.2) = []
  ∧ prisma.lookupUser "+1555" (db run.2) = None.
Proof.
  intros run. split; [reflexivity |].
  apply (process_422_leaves_store_unchanged (runtime := zeroRuntime)
           "paid the landlord" "+1555" emptyWorld run.2 run.1);
    reflexivity.
Defined.

(** C10 when the generation service rejects the query of a user with two
    transactions. *)
Lemma query_failure_is_only_partly_defaulted_witness :
  ∃ w' : World,
    queryTransactions (runtime := failingRuntime)
      "what's my balance?" "+1555" ledgerWorld
    = (mkResponse 200
         (QueryData
            (Some "Sorry, I encountered an error while analyzing your transactions.")
            None None [] 0%float 2), w')
    ∧ db w' = db ledgerWorld.
Proof.
  apply (proj2 (query_failure_is_only_partly_defaulted (runtime := failingRuntime)
                  "what's my balance?" "+1555"
                  (prisma.transactionsOf 1 (db ledgerWorld)) quotaError
                  (@QueryGenerationError failingRuntime _ _ quotaError eq_refl))
           ledgerWorld (User.mk 1 "+1555" None));
    first [reflexivity | vm_compute; discriminate].
Defined.

(** * Beyond the claims: the rest of the handlers *)

(** ** The read accessors *)

(** The three date orders are total preorders. *)
#[global] Instance dateDesc_total : Total prisma.dateDesc.
Proof. intros a b. unfold prisma.dateDesc. lia. Qed.

#[global] Instance dateDesc_trans : Transitive prisma.dateDesc.
Proof. intros a b c. unfold prisma.dateDesc. lia. Qed.

#[global] Instance creditDateDesc_total : Total prisma.creditDateDesc.
Proof. intros a b. unfold prisma.creditDateDesc. lia. Qed.

#[global] Instance creditDateDesc_trans : Transitive prisma.creditDateDesc.
Proof. intros a b c. unfold prisma.creditDateDesc. lia. Qed.

#[global] Instance debitDateDesc_total : Total prisma.debitDateDesc.
Proof. intros a b. unfold prisma.debitDateDesc. lia. Qed.

#[global] Instance debitDateDesc_trans : Transitive prisma.debitDateDesc.
Proof. intros a b c. unfold prisma.debitDateDesc. lia. Qed.

Section ReadAccessors.
Context `{runtime : Runtime}.

Import transactionController.

(** The opening lookup, case by case. *)
Lemma withUser_missing {B} (failure : string → B) (userPhone : string)
    (found : User.t → M (Response B)) (w : World) :
  truthy userPhone = false →
  withUser failure userPhone found w
  = (mkResponse 400 (failure "User phone number is required"), w).
Proof. intros Hphone. unfold withUser. rewrite Hphone. reflexivity. Qed.

Lemma withUser_absent {B} (failure : string → B) (userPhone : string)
    (found : User.t → M (Response B)) (w : World) :
  truthy userPhone = true →
  prisma.lookupUser userPhone (db w) = None →
  withUser failure userPhone found w
  = (mkResponse 404 (failure "User not found"), w).
Proof.
  intros Hphone Habsent. unfold withUser. rewrite Hphone. simpl.
  run. rewrite Habsent. reflexivity.
Qed.

Lemma withUser_found {B} (failure : string → B) (userPhone : string)
    (found : User.t → M (Response B)) (w : World) (user : User.t) :
  truthy userPhone = true →
  prisma.lookupUser userPhone (db w) = Some user →
  withUser failure userPhone found w = found user w.
Proof.
  intros Hphone Hfound. unfold withUser. rewrite Hphone. simpl.
  run. rewrite Hfound. reflexivity.
Qed.

(** X1. For a non-empty phone of a registered user, [getTransactions]
    answers 200 with exactly the user's rows of the unified table, each as
    often as it is stored, latest date first; the world is left as it was. *)
Theorem getTransactions_lists_the_users_rows_latest_first
    (userPhone : string) (w : World) (user : User.t) :
  truthy userPhone = true →
  prisma.lookupUser userPhone (db w) = Some user →
  ∃ rows : list Transaction.t,
    getTransactions userPhone w = (mkResponse 200 (ListData rows), w)
    ∧ rows ≡ₚ filter (λ t, Transaction.userId t = User.id user)
                (transactions (db w))
    ∧ StronglySorted (λ a b, (Transaction.date b ≤ Transaction.date a)%Z) rows.
Proof.
  intros Hphone Hfound. eexists. split; [| split].
  - unfold getTransactions. rewrite (withUser_found _ _ _ _ user Hphone Hfound).
    reflexivity.
  - apply merge_sort_Permutation.
  - apply (StronglySorted_merge_sort prisma.dateDesc).
Qed.

(** X2. The same for [getUserCredits] and the credit table. *)
Theorem getUserCredits_lists_the_users_rows_latest_first
    (userPhone : string) (w : World) (user : User.t) :
  truthy userPhone = true →
  prisma.lookupUser userPhone (db w) = Some user →
  ∃ rows : list Credit.t,
    getUserCredits userPhone w = (mkResponse 200 (ListData rows), w)
    ∧ rows ≡ₚ filter (λ c, Credit.userId c = User.id user) (credits (db w))
    ∧ StronglySorted (λ a b, (Credit.date b ≤ Credit.date a)%Z) rows.
Proof.
  intros Hphone Hfound. eexists. split; [| split].
  - unfold getUserCredits. rewrite (withUser_found _ _ _ _ user Hphone Hfound).
    reflexivity.
  - apply merge_sort_Permutation.
  - apply (StronglySorted_merge_sort prisma.creditDateDesc).
Qed.

(** X3. The same for [getUserDebits] and the debit table. *)
Theorem getUserDebits_lists_the_users_rows_latest_first
    (userPhone : string) (w : World) (user : User.t) :
  truthy userPhone = true →
  prisma.lookupUser userPhone (db w) = Some user →
  ∃ rows : list Debit.t,
    getUserDebits userPhone w = (mkResponse 200 (ListData rows), w)
    ∧ rows ≡ₚ filter (λ d, Debit.userId d = User.id user) (debits (db w))
    ∧ StronglySorted (λ a b, (Debit.date b ≤ Debit.date a)%Z) rows.
Proof.
  intros Hphone Hfound. eexists. split; [| split].
  - unfold getUserDebits. rewrite (withUser_found _ _ _ _ user Hphone Hfound).
    reflexivity.
  - apply merge_sort_Permutation.
  - apply (StronglySorted_merge_sort prisma.debitDateDesc).
Qed.

(** The five read accessors end in the world they started in. *)
Lemma withUser_reads {B} (failure : string → B) (userPhone : string)
    (found : User.t → M (Response B)) (w : World) :
  (∀ user, (found user w).2 = w) →
  (withUser failure userPhone found w).2 = w.
Proof.
  intros Hfound. unfold withUser.
  destruct (truthy userPhone); simpl; [| reflexivity].
  run. destruct (prisma.lookupUser userPhone (db w)); [apply Hfound | reflexivity].
Qed.

Lemma getTransactionSummary_reads (userPhone : string) (w : World) :
  (getTransactionSummary userPhone w).2 = w.
Proof.
  unfold getTransactionSummary.
  destruct (truthy userPhone); simpl; [| reflexivity].
  run. destruct (prisma.lookupUser userPhone (db w)); reflexivity.
Qed.

Lemma getTransactionsByCategory_reads (userPhone category : string) (w : World) :
  (getTransactionsByCategory userPhone category w).2 = w.
Proof.
  unfold getTransactionsByCategory.
  destruct (truthy userPhone), (truthy category); simpl; try reflexivity.
  run. destruct (prisma.lookupUser userPhone (db w)); reflexivity.
Qed.

Lemma getTransactions_reads (userPhone : string) (w : World) :
  (getTransactions userPhone w).2 = w.
Proof. apply withUser_reads. reflexivity. Qed.

Lemma getUserCredits_reads (userPhone : string) (w : World) :
  (getUserCredits userPhone w).2 = w.
Proof. apply withUser_reads. reflexivity. Qed.

Lemma getUserDebits_reads (userPhone : string) (w : World) :
  (getUserDebits userPhone w).2 = w.
Proof. apply withUser_reads. reflexivity. Qed.


(** X5. A non-empty phone nobody has is answered 404 "User not found" by
    each of the five read accessors. *)
Theorem read_accessors_reject_unknown_phone
    (userPhone category : string) (w : World) :
  truthy userPhone = true → truthy category = true →
  prisma.lookupUser userPhone (db w) = None →
  (getTransactions userPhone w).1 = mkResponse 404 (ListFailure "User not found")
  ∧ (getUserCredits userPhone w).1 = mkResponse 404 (ListFailure "User not found")
  ∧ (getUserDebits userPhone w).1 = mkResponse 404 (ListFailure "User not found")
  ∧ (getTransactionSummary userPhone w).1
    = mkResponse 404 (SummaryFailure "User not found")
  ∧ (getTransactionsByCategory userPhone category w).1
    = mkResponse 404 (CategoryFailure "User not found").
Proof.
  intros Hphone Hcategory Habsent.
  split; [| split; [| split; [| split]]].
  - unfold getTransactions. by rewrite withUser_absent.
  - unfold getUserCredits. by rewrite withUser_absent.
  - unfold getUserDebits. by rewrite withUser_absent.
  - unfold getTransactionSummary. rewrite Hphone. simpl.
    run. by rewrite Habsent.
  - unfold getTransactionsByCategory. rewrite Hphone, Hcategory. simpl.
    run. by rewrite Habsent.
Qed.

End ReadAccessors.

(** ** Substrings and the category filter *)

Section CategoryFilter.
Context `{runtime : Runtime}.

Import transactionController.

Lemma append_cons (c : ascii) (s t : string) :
  String.append (String c s) t = String c (String.append s t).
Proof. reflexivity. Qed.

Lemma append_nil (t : string) : String.append "" t = t.
Proof. reflexivity. Qed.

Lemma prefix_spec (sub s : string) :
  String.prefix sub s = true ↔ ∃ post, s = String.append sub post.
Proof.
  revert s. induction sub as [| c sub IH]; intros s.
  - split; [intros _; by exists s | intros _; by destruct s].
  - destruct s as [| c' s]; simpl.
    + split; [done | intros [post Hpost]; rewrite append_cons in Hpost;
                      discriminate].
    + destruct (Ascii.ascii_dec c c') as [-> | Hne].
      * rewrite IH. split; intros [post Hpost]; exists post;
          rewrite append_cons in *; congruence.
      * split; [done |]. intros [post Hpost]. rewrite append_cons in Hpost.
        congruence.
Qed.

(** [includes] is the substring test: [sub] sits between some [pre] and
    some [post]. *)
Lemma includes_spec (s sub : string) :
  includes s sub = true
  ↔ ∃ pre post, s = String.append pre (String.append sub post).
Proof.
  induction s as [| c s IH].
  - cbn [includes]. destruct (String.prefix sub "") eqn:Hprefix.
    + apply prefix_spec in Hprefix as [post Hpost].
      split; [intros _; by exists "", post | done].
    + split; [done |]. intros (pre & post & Heq).
      destruct pre; [| rewrite append_cons in Heq; discriminate].
      rewrite append_nil in Heq.
      assert (String.prefix sub "" = true) as Hyes
        by (apply prefix_spec; by exists post).
      congruence.
  - cbn [includes]. destruct (String.prefix sub (String c s)) eqn:Hprefix.
    + apply prefix_spec in Hprefix as [post Hpost].
      split; [intros _; by exists "", post | done].
    + rewrite IH. split.
      * intros (pre & post & ->). by exists (String c pre), post.
      * intros (pre & post & Heq). destruct pre as [| c' pre].
        -- rewrite append_nil in Heq.
           assert (String.prefix sub (String c s) = true) as Hyes
             by (apply prefix_spec; by exists post).
           congruence.
        -- rewrite append_cons in Heq. injection Heq as _ ->.
           by exists pre, post.
Qed.

(** X6. For a registered user and a non-empty category,
    [getTransactionsByCategory] answers 200 with the user's unified rows
    and the user's debit rows whose category contains the filter, both
    latest date first; [totalAmount] adds up the debit rows only, while
    [count] counts the unified rows. *)
Theorem getTransactionsByCategory_totals_debits_counts_transactions
    (userPhone category : string) (w : World) (user : User.t) :
  truthy userPhone = true → truthy category = true →
  prisma.lookupUser userPhone (db w) = Some user →
  ∃ (ts : list Transaction.t) (ds : list Debit.t),
    getTransactionsByCategory userPhone category w
    = (mkResponse 200
         (CategoryData ts ds category (sum (Debit.amount <$> ds)) (length ts)),
       w)
    ∧ ts ≡ₚ filter (λ t, Transaction.userId t = User.id user
                         ∧ prisma.containsInsensitive (Transaction.category t)
                             category = true)
              (transactions (db w))
    ∧ ds ≡ₚ filter (λ d, Debit.userId d = User.id user
                         ∧ prisma.containsInsensitive (Debit.category d)
                             category = true)
              (debits (db w))
    ∧ StronglySorted (λ a b, (Transaction.date b ≤ Transaction.date a)%Z) ts
    ∧ StronglySorted (λ a b, (Debit.date b ≤ Debit.date a)%Z) ds.
Proof.
  intros Hphone Hcategory Hfound.
  destruct (prisma.transaction_findMany_category (User.id user) category w)
    as [ts w1] eqn:Hts.
  destruct (prisma.debit_findMany_category (User.id user) category w)
    as [ds w2] eqn:Hds.
  exists ts, ds.
  unfold prisma.transaction_findMany_category, prisma.read in Hts.
  unfold prisma.debit_findMany_category, prisma.read in Hds.
  injection Hts as <- <-. injection Hds as <- <-.
  split; [| split; [| split; [| split]]].
  - unfold getTransactionsByCategory. rewrite Hphone, Hcategory. simpl.
    run. rewrite Hfound. rewrite <- sumAmounts_sum. reflexivity.
  - apply merge_sort_Permutation.
  - apply merge_sort_Permutation.
  - apply (StronglySorted_merge_sort prisma.dateDesc).
  - apply (StronglySorted_merge_sort prisma.debitDateDesc).
Qed.

(** A row matches the filter when its category, in lower case, has the
    filter, in lower case, inside it; a row without category never does. *)
Lemma containsInsensitive_spec (value : option string) (needle : string) :
  prisma.containsInsensitive value needle = true
  ↔ ∃ v pre post,
      value = Some v
      ∧ toLowerCase v
        = String.append pre (String.append (toLowerCase needle) post).
Proof.
  destruct value as [v |]; simpl.
  - rewrite includes_spec. split.
    + intros (pre & post & Heq). by exists v, pre, post.
    + intros (v' & pre & post & [= <-] & Heq). by exists pre, post.
  - split; [done | intros (v & pre & post & Hv & _); discriminate].
Qed.

(** X7. The category filter ignores case: two filters that agree in lower
    case select the same rows, the same total and the same count. *)
Theorem getTransactionsByCategory_ignores_case
    (userPhone category category' : string) (w : World) (user : User.t) :
  truthy userPhone = true → truthy category = true →
  toLowerCase category = toLowerCase category' →
  prisma.lookupUser userPhone (db w) = Some user →
  ∃ (ts : list Transaction.t) (ds : list Debit.t) (totalAmount : float)
    (count : nat),
    getTransactionsByCategory userPhone category w
    = (mkResponse 200 (CategoryData ts ds category totalAmount count), w)
    ∧ getTransactionsByCategory userPhone category' w
      = (mkResponse 200 (CategoryData ts ds category' totalAmount count), w).
Proof.
  intros Hphone Hcategory Hsame Hfound.
  assert (truthy category' = true) as Hcategory'.
  { apply toLowerCase_nonempty. rewrite <- Hsame.
    destruct category; [discriminate | discriminate]. }
  do 4 eexists. split.
  - unfold getTransactionsByCategory. rewrite Hphone, Hcategory. simpl.
    run. rewrite Hfound. reflexivity.
  - unfold getTransactionsByCategory. rewrite Hphone, Hcategory'. simpl.
    run. rewrite Hfound. unfold prisma.containsInsensitive.
    rewrite Hsame. reflexivity.
Qed.

End CategoryFilter.

(** ** The breakdowns of the summary *)

Section Breakdowns.

Import transactionController.



End Breakdowns.

(** ** What the two writers of model calls do to the world *)

Section QueryAndProcess.
Context `{runtime : Runtime}.

Import transactionController.

(** The query engine reads no table and no clock, and calls the model once. *)
Lemma geminiClient_queryTransactions_world (question userPhone : string)
    (transactions : list Transaction.t) (w : World) :
  (geminiClient.queryTransactions question transactions userPhone w).2
  = mkWorld (db w) (ticks w) (aiCalls w ++ [QueryPrompt question transactions]).
Proof.
  unfold geminiClient.queryTransactions, geminiClient.queryTransactions_try.
  run.
  destruct (generateContent (QueryPrompt question transactions))
    as [e | [resultText |]]; [easy | | easy].
  destruct (JSON_parse_answer resultText) as [e | | jsonResponse]; easy.
Qed.

Lemma orElse_truthy {A} `{Truthy A} (o : option A) (d : A) :
  truthy d = true → truthy (orElse o d) = true.
Proof.
  intros Hd. unfold orElse. destruct o as [a |]; [| exact Hd].
  destruct (truthy a) eqn:Ha; [exact Ha | exact Hd].
Qed.

(** Whatever happens, the query engine answers in words. *)
Lemma geminiClient_queryTransactions_answer (question userPhone : string)
    (transactions : list Transaction.t) (w : World) :
  ∃ answer : string,
    QueryAnswer.answer
      (geminiClient.queryTransactions question transactions userPhone w).1
    = Some answer
    ∧ truthy answer = true.
Proof.
  unfold geminiClient.queryTransactions, geminiClient.queryTransactions_try.
  run.
  destruct (generateContent (QueryPrompt question transactions))
    as [e | [resultText |]]; [by eexists | | by eexists].
  destruct (JSON_parse_answer resultText) as [e | | jsonResponse];
    [by eexists | by eexists |].
  eexists. split; [reflexivity |]. by apply orElse_truthy.
Qed.

(** The controller's [queryTransactions] leaves the store as it is. *)
Lemma queryTransactions_db (question userPhone : string) (w : World) :
  db (queryTransactions question userPhone w).2 = db w.
Proof.
  unfold queryTransactions.
  destruct (truthy question), (truthy userPhone); simpl; try reflexivity.
  unfold mbind at 1, M_bind at 1, prisma.user_findUnique, prisma.read.
  destruct (prisma.lookupUser userPhone (db w)) as [user |]; [| reflexivity].
  unfold mbind at 1, M_bind at 1, prisma.transaction_findMany, prisma.read.
  destruct (length (prisma.transactionsOf (User.id user) (db w)) =? 0)%nat;
    [reflexivity |].
  unfold mbind, M_bind, mret, M_ret.
  pose proof (geminiClient_queryTransactions_world question userPhone
                (prisma.transactionsOf (User.id user) (db w)) w) as Hworld.
  destruct (geminiClient.queryTransactions question
              (prisma.transactionsOf (User.id user) (db w)) userPhone w)
    as [analysis w1].
  simpl in Hworld. by subst w1.
Qed.


(** X10. Every 200 of the controller's [queryTransactions] carries an
    answer, and the answer is not the empty string: the canned sentence, the
    model's answer, or one of the two sentences the query engine falls back
    on. *)
Theorem queryTransactions_200_carries_an_answer
    (question userPhone : string) (w w' : World) (response : Response QueryBody) :
  queryTransactions question userPhone w = (response, w') →
  status response = 200 →
  ∃ answer : string,
    truthy answer = true
    ∧ (json response = QueryEarly answer
       ∨ ∃ insights suggestedCategories relevantTransactions totalAmount count,
           json response
           = QueryData (Some answer) insights suggestedCategories
               relevantTransactions totalAmount count).
Proof.
  intros Hrun Hstatus.
  destruct (truthy question) eqn:Hquestion;
    [destruct (truthy userPhone) eqn:Hphone |].
  - destruct (prisma.lookupUser userPhone (db w)) as [user |] eqn:Hfound.
    + destruct (prisma.transactionsOf (User.id user) (db w)) as [| t rest]
        eqn:Hrows.
      * rewrite (queryTransactions_early _ _ _ user Hquestion Hphone Hfound Hrows)
          in Hrun.
        injection Hrun as <- <-. eexists. split; [| left; reflexivity]. done.
      * assert (prisma.transactionsOf (User.id user) (db w) ≠ []) as Hsome
          by (rewrite Hrows; discriminate).
        rewrite (queryTransactions_delegates _ _ _ user
                   Hquestion Hphone Hfound Hsome) in Hrun.
        cbv zeta in Hrun.
        destruct (geminiClient_queryTransactions_answer question userPhone
                    (prisma.transactionsOf (User.id user) (db w)) w)
          as (answer & Hanswer & Htruthy).
        destruct (geminiClient.queryTransactions question
                    (prisma.transactionsOf (User.id user) (db w)) userPhone w)
          as [analysis w1].
        simpl in Hanswer. injection Hrun as <- <-.
        exists answer. split; [exact Htruthy |]. right.
        simpl. rewrite Hanswer. by do 5 eexists.
    + rewrite (queryTransactions_absent _ _ _ Hquestion Hphone Hfound) in Hrun.
      injection Hrun as <- <-. discriminate.
  - unfold queryTransactions in Hrun. rewrite Hquestion, Hphone in Hrun.
    injection Hrun as <- <-. discriminate.
  - unfold queryTransactions in Hrun. rewrite Hquestion in Hrun.
    injection Hrun as <- <-. discriminate.
Qed.

(** X11. Whatever the request and whatever the analyzer returns,
    [processTransaction] only appends: at most one user, at most one unified
    row, and a type-specific row only together with a unified one; it calls
    the model exactly once when both fields are present and not at all
    otherwise. *)
Theorem processTransaction_only_appends (text userPhone : string) (w : World) :
  let w' := (processTransaction text userPhone w).2 in
  ∃ (us : list User.t) (ts : list Transaction.t) (cs : list Credit.t)
    (ds : list Debit.t),
    users (db w') = users (db w) ++ us
    ∧ transactions (db w') = transactions (db w) ++ ts
    ∧ credits (db w') = credits (db w) ++ cs
    ∧ debits (db w') = debits (db w) ++ ds
    ∧ (length us ≤ length ts ≤ 1)%nat
    ∧ (length cs + length ds ≤ length ts)%nat
    ∧ aiCalls w'
      = aiCalls w
        ++ (if truthy text && truthy userPhone then [AnalyzePrompt text] else []).
Proof.
  cbv zeta.
  destruct (truthy text) eqn:Htext; [destruct (truthy userPhone) eqn:Hphone |].
  - destruct (geminiClient.analyzeTransaction text userPhone w)
      as [analysis w1] eqn:Hanalysis.
    pose proof (analyzeTransaction_world text userPhone w) as [Hdb Hcalls].
    rewrite Hanalysis in Hdb, Hcalls. simpl in Hdb, Hcalls.
    destruct (truthy (TransactionAnalysis.type analysis)) eqn:Htype;
      [destruct (truthy (TransactionAnalysis.amount analysis)) eqn:Hamount |].
    + destruct (TransactionAnalysis.type analysis) as [type |] eqn:Hty;
        [| discriminate].
      destruct (TransactionAnalysis.amount analysis) as [amount |] eqn:Hamt;
        [| discriminate].
      rewrite (processTransaction_valid _ _ _ _ _ _ _
                 Htext Hphone Hanalysis Hty Htype Hamt Hamount).
      pose proof (persistTransaction_spec userPhone analysis type amount w1)
        as Hspec.
      cbv zeta in Hspec. rewrite Hdb in Hspec.
      destruct Hspec as (specific & w2 & -> & Hus & Hts & Hai & Hspecific).
      simpl. rewrite Hus, Hts, Hai, Hcalls.
      destruct (prisma.lookupUser userPhone (db w)) as [user |];
        [exists [] | eexists [_]];
        (destruct (String.eqb (toLowerCase type) "credit");
           [destruct Hspecific as (_ & -> & ->); eexists [_], [_], []
           | destruct (String.eqb (toLowerCase type) "debit");
               [destruct Hspecific as (_ & -> & ->); eexists [_], [], [_]
               | destruct Hspecific as (_ & -> & ->); eexists [_], [], []]]);
        rewrite ?app_nil_r; simpl; repeat split; lia.
    + rewrite (processTransaction_invalid _ _ _ _ _ Htext Hphone Hanalysis)
        by (by right).
      simpl. rewrite Hdb, Hcalls. exists [], [], [], [].
      rewrite !app_nil_r. simpl. repeat split; lia.
    + rewrite (processTransaction_invalid _ _ _ _ _ Htext Hphone Hanalysis)
        by (by left).
      simpl. rewrite Hdb, Hcalls. exists [], [], [], [].
      rewrite !app_nil_r. simpl. repeat split; lia.
  - unfold processTransaction. rewrite Htext, Hphone. simpl.
    exists [], [], [], []. rewrite !app_nil_r. simpl. repeat split; lia.
  - unfold processTransaction. rewrite Htext. simpl.
    exists [], [], [], []. rewrite !app_nil_r. simpl. repeat split; lia.
Qed.

End QueryAndProcess.

(** ** Behind the middleware *)

Section Routes.
Context `{runtime : Runtime}.

Import transactionController.

(** X12. [GET /users/search] behind [checkUserExists] changes nothing and
    answers for the phone of the request: 400 without a phone, the
    middleware's 404 for a phone nobody has, and 200 with the user of that
    phone otherwise. The 404 "User not found" of [getUserByPhone] itself is
    never sent. *)
Theorem getSearch_answers_for_the_identified_user (req : Request) (w : World) :
  ∃ response : Response UserBody,
    usersRoutes.getSearch req w = (response, w)
    ∧ response ≠ mkResponse 404 (UserFailure "User not found")
    ∧ match prisma.lookupUser (identifiedPhone req) (db w) with
      | Some user =>
          truthy (identifiedPhone req) = true →
          response = mkResponse 200 (UserData user)
          ∧ User.phone user = identifiedPhone req
      | None =>
          truthy (identifiedPhone req) = true →
          response
          = mkResponse 404 (UserFailure "User not found. Please register first.")
      end
    ∧ (truthy (identifiedPhone req) = false →
       response
       = mkResponse 400 (UserFailure "Missing required field: userPhone")).
Proof.
  unfold usersRoutes.getSearch, middleware.checkUserExists.
  destruct (truthy (identifiedPhone req)) eqn:Hphone; simpl.
  - run.
    destruct (prisma.lookupUser (identifiedPhone req) (db w)) as [user |]
      eqn:Hfound; simpl.
    + eexists. split; [reflexivity |]. split; [discriminate |].
      split; [| discriminate]. intros _. split; [reflexivity |].
      by apply lookupUser_Some in Hfound as [Hfound _].
    + eexists. split; [reflexivity |]. split; [discriminate |].
      split; [done | discriminate].
  - eexists. split; [reflexivity |]. split; [discriminate |].
    split; [| done]. by destruct (prisma.lookupUser _ _).
Qed.

(** For a registered phone [processTransaction] leaves the users alone. *)
Lemma processTransaction_keeps_registered (text userPhone : string) (w : World)
    (user : User.t) :
  prisma.lookupUser userPhone (db w) = Some user →
  users (db (processTransaction text userPhone w).2) = users (db w).
Proof.
  intros Hfound.
  destruct (truthy text) eqn:Htext; [destruct (truthy userPhone) eqn:Hphone |].
  - destruct (geminiClient.analyzeTransaction text userPhone w)
      as [analysis w1] eqn:Hanalysis.
    pose proof (analyzeTransaction_world text userPhone w) as [Hdb _].
    rewrite Hanalysis in Hdb. simpl in Hdb.
    destruct (truthy (TransactionAnalysis.type analysis)) eqn:Htype;
      [destruct (truthy (TransactionAnalysis.amount analysis)) eqn:Hamount |].
    + destruct (TransactionAnalysis.type analysis) as [type |] eqn:Hty;
        [| discriminate].
      destruct (TransactionAnalysis.amount analysis) as [amount |] eqn:Hamt;
        [| discriminate].
      rewrite (processTransaction_valid _ _ _ _ _ _ _
                 Htext Hphone Hanalysis Hty Htype Hamt Hamount).
      pose proof (persistTransaction_spec userPhone analysis type amount w1)
        as Hspec.
      cbv zeta in Hspec. rewrite Hdb, Hfound in Hspec.
      destruct Hspec as (specific & w2 & -> & Hus & _). exact Hus.
    + rewrite (processTransaction_invalid _ _ _ _ _ Htext Hphone Hanalysis)
        by (by right).
      simpl. by rewrite Hdb.
    + rewrite (processTransaction_invalid _ _ _ _ _ Htext Hphone Hanalysis)
        by (by left).
      simpl. by rewrite Hdb.
  - unfold processTransaction. rewrite Htext, Hphone. reflexivity.
  - unfold processTransaction. rewrite Htext. reflexivity.
Qed.

(** X13. Under the route table that puts [checkUserExists] in front of
    [processTransaction], no request ever adds a user: the branch of the
    handler that creates one is never taken. *)
Theorem guarded_postRoot_never_creates_a_user (req : Request) (w : World) :
  users (db (guardedRoutes.postRoot req w).2) = users (db w).
Proof.
  unfold guardedRoutes.postRoot.
  destruct (truthy (identifiedPhone req)) eqn:Hphone.
  - destruct (prisma.lookupUser (identifiedPhone req) (db w)) as [user |]
      eqn:Hfound.
    + rewrite (checkUserExists_present _ _ _ _ user Hphone Hfound).
      unfold identifiedPhone in Hfound.
      destruct (truthy (body_userPhone req)) eqn:Hbody.
      * by apply (processTransaction_keeps_registered _ _ _ user).
      * unfold processTransaction. rewrite Hbody, orb_true_r. reflexivity.
    + by rewrite checkUserExists_absent.
  - unfold middleware.checkUserExists. rewrite Hphone. reflexivity.
Qed.

(** X14. Under the same route table no [GET] route ever answers 200: the
    read accessors look for the phone in [req.params], which these paths do
    not fill. *)
Theorem guarded_get_routes_never_succeed (req : Request) (w : World) :
  status (guardedRoutes.getRoot req w).1 ≠ 200
  ∧ status (guardedRoutes.getSummary req w).1 ≠ 200
  ∧ status (guardedRoutes.getCredits req w).1 ≠ 200
  ∧ status (guardedRoutes.getDebits req w).1 ≠ 200
  ∧ status (guardedRoutes.getCategory req w).1 ≠ 200.
Proof.
  unfold guardedRoutes.getRoot, guardedRoutes.getSummary,
    guardedRoutes.getCredits, guardedRoutes.getDebits,
    guardedRoutes.getCategory, middleware.checkUserExists.
  destruct (truthy (identifiedPhone req)); simpl; [| done].
  run. destruct (prisma.lookupUser (identifiedPhone req) (db w)); done.
Qed.

(** X15. There, a registered user who asks for the summary is told that
    the phone number is required. *)
Theorem guarded_getSummary_of_registered_user_is_400
    (req : Request) (w : World) (user : User.t) :
  truthy (identifiedPhone req) = true →
  prisma.lookupUser (identifiedPhone req) (db w) = Some user →
  guardedRoutes.getSummary req w
  = (mkResponse 400 (SummaryFailure "User phone number is required"), w).
Proof.
  intros Hphone Hfound. unfold guardedRoutes.getSummary.
  by rewrite (checkUserExists_present _ _ _ _ user Hphone Hfound).
Qed.

End Routes.

(** ** The error boundary *)

Section ErrorBoundary.

Import errorHandler.

(** X16. Whatever the error and the mode, the status sent by [errorHandler]
    is 400, 404, 409 or 500. *)
Theorem errorHandler_status_codes (production : bool) (err : Err) :
  status (errorHandler production err) ∈ [400; 404; 409; 500].
Proof.
  unfold errorHandler, knownRequestError.
  destruct (class err); simpl.
  - destruct (codeIs err "P2002"); [set_solver |].
    destruct (codeIs err "P2025"); set_solver.
  - set_solver.
  - destruct (String.eqb (name err) "ValidationError"); set_solver.
Qed.

(** X17. In production, an error that is neither a Prisma error nor named
    [ValidationError] is answered 500 "Internal Server Error": neither its
    message nor its stack is sent, only its code and meta if it has any. *)
Theorem errorHandler_hides_unknown_errors_in_production (err : Err) :
  class err = OtherError → name err ≠ "ValidationError" →
  errorHandler true err
  = mkResponse 500
      (mkBody "Internal Server Error" None (orNull (code err)) (meta err)).
Proof.
  intros Hclass Hname. unfold errorHandler. rewrite Hclass.
  apply String.eqb_neq in Hname. rewrite Hname. reflexivity.
Qed.

(** X18. A unique-constraint error (P2002) is answered 409 with the fields
    of its target, joined by a comma and a space; when the error carries no
    target, the message ends in the text [undefined]. *)
Theorem errorHandler_names_the_conflicting_fields (production : bool) (err : Err) :
  class err = PrismaClientKnownRequestError → code err = Some "P2002" →
  let response := errorHandler production err in
  status response = 409
  ∧ body_message (json response)
    = String.append "Unique constraint failed on the field(s): "
        match meta err with
        | Some m =>
            match target m with
            | Some fields => String.concat ", " fields
            | None => "undefined"
            end
        | None => "undefined"
        end.
Proof.
  intros Hclass Hcode. unfold errorHandler, knownRequestError, codeIs.
  rewrite Hclass, Hcode. simpl. split; reflexivity.
Qed.

End ErrorBoundary.

(** ** The shared Prisma client *)

Section Singleton.

Import prismaClient.

Lemma calls_once_constructed (n : nat) (client built : nat) :
  calls n (mkState (Some client) built)
  = (replicate n client, mkState (Some client) built).
Proof.
  induction n as [| n IH]; simpl; [reflexivity |]. by rewrite IH.
Qed.

(** X19. However often [getPrismaClient] is called after the module is
    loaded, one client is constructed, on the first call, and every call
    returns that client. *)
Theorem getPrismaClient_constructs_one_client (n : nat) :
  (0 < n)%nat →
  ∃ client : nat,
    calls n loaded = (replicate n client, mkState (Some client) 1).
Proof.
  intros Hn. destruct n as [| n]; [lia |].
  exists 0%nat. unfold loaded. simpl. by rewrite calls_once_constructed.
Qed.

End Singleton.

(** ** What holds in every world the handlers can reach *)

Section Invariants.

Import transactionController.

Lemma freshId_fresh {A} (id : A → nat) (rows : list A) :
  prisma.freshId id rows ∉ id <$> rows.
Proof.
  intros Hin. apply max_list_elem_of_le in Hin.
  unfold prisma.freshId in Hin. lia.
Qed.

Lemma NoDup_append_fresh {A} (l : list A) (x : A) :
  NoDup l → x ∉ l → NoDup (l ++ [x]).
Proof.
  intros Hl Hx. apply NoDup_app. split; [done |]. split.
  - intros y Hy Hin. apply list_elem_of_singleton in Hin. by subst.
  - apply NoDup_singleton.
Qed.

Lemma not_credit_and_debit (t : Transaction.t) : isDebit t → ¬ isCredit t.
Proof. unfold isDebit, isCredit. intros -> ?. discriminate. Qed.

Lemma emptyStore_consistent : Consistent emptyStore.
Proof.
  split; simpl; try apply NoDup_nil_2; try reflexivity;
    intros x Hin; by apply not_elem_of_nil in Hin.
Qed.

(** Registering a phone nobody has keeps the store in good order. *)
Lemma consistent_add_user (s : Store) (userPhone : string) (name : option string) :
  Consistent s → userPhone ≠ "" →
  prisma.lookupUser userPhone s = None →
  Consistent
    (mkStore (users s ++ [User.mk (prisma.freshId User.id (users s)) userPhone name])
       (transactions s) (credits s) (debits s)).
Proof.
  intros [] Hphone Habsent. split; simpl; try assumption.
  - rewrite fmap_app. apply NoDup_append_fresh; [done |]. simpl.
    intros Hin. apply list_elem_of_fmap in Hin as (u & Hu & Hin).
    by apply (lookupUser_None _ _ Habsent u Hin).
  - intros u Hin. apply elem_of_app in Hin as [Hin | Hin]; [auto |].
    apply list_elem_of_singleton in Hin. by subst.
  - rewrite fmap_app. apply NoDup_append_fresh; [done |]. apply freshId_fresh.
  - intros t Hin. destruct (transactions_owned0 t Hin) as (u & Hu & Hid).
    exists u. split; [| done]. apply elem_of_app. by left.
Qed.

(** Recording a transaction of a registered user keeps the store in good
    order, whichever way its type points. *)
Lemma consistent_add_rows (s : Store) (user : User.t) (type : string)
    (amount : float) (description category source : option string) (d : Date) :
  Consistent s → user ∈ users s →
  let t := Transaction.mk (prisma.freshId Transaction.id (transactions s))
             amount type description category source d (User.id user) in
  let c := Credit.mk (prisma.freshId Credit.id (credits s)) amount source
             description d (User.id user) in
  let b := Debit.mk (prisma.freshId Debit.id (debits s)) amount category
             description d (User.id user) in
  Consistent
    (if String.eqb (toLowerCase type) "credit" then
       mkStore (users s) (transactions s ++ [t]) (credits s ++ [c]) (debits s)
     else if String.eqb (toLowerCase type) "debit" then
       mkStore (users s) (transactions s ++ [t]) (credits s) (debits s ++ [b])
     else
       mkStore (users s) (transactions s ++ [t]) (credits s) (debits s)).
Proof.
  intros [] Huser t c b.
  assert (NoDup (Transaction.id <$> transactions s ++ [t])) as Hids
    by (rewrite fmap_app; apply NoDup_append_fresh; [done | apply freshId_fresh]).
  assert (∀ t', t' ∈ transactions s ++ [t] →
            ∃ u, u ∈ users s ∧ User.id u = Transaction.userId t') as Howned.
  { intros t' Hin. apply elem_of_app in Hin as [Hin | Hin]; [auto |].
    apply list_elem_of_singleton in Hin. subst t'. by exists user. }
  destruct (String.eqb_spec (toLowerCase type) "credit") as [Hcredit | Hcredit];
    [| destruct (String.eqb_spec (toLowerCase type) "debit") as [Hdebit | Hdebit]].
  - assert (isCredit t) as Hc by exact Hcredit.
    assert (¬ isDebit t) as Hd by (unfold isDebit; simpl; rewrite Hcredit; discriminate).
    split; simpl; try assumption.
    + rewrite fmap_app. apply NoDup_append_fresh; [done | apply freshId_fresh].
    + rewrite filter_app, !fmap_app, credits_mirror0.
      rewrite (filter_cons_True _ _ _ Hc). reflexivity.
    + rewrite filter_app, fmap_app, debits_mirror0.
      rewrite (filter_cons_False _ _ _ Hd). simpl. by rewrite app_nil_r.
  - assert (isDebit t) as Hd by exact Hdebit.
    assert (¬ isCredit t) as Hc by (by apply not_credit_and_debit).
    split; simpl; try assumption.
    + rewrite fmap_app. apply NoDup_append_fresh; [done | apply freshId_fresh].
    + rewrite filter_app, fmap_app, credits_mirror0.
      rewrite (filter_cons_False _ _ _ Hc). simpl. by rewrite app_nil_r.
    + rewrite filter_app, !fmap_app, debits_mirror0.
      rewrite (filter_cons_True _ _ _ Hd). reflexivity.
  - assert (¬ isCredit t) as Hc by exact Hcredit.
    assert (¬ isDebit t) as Hd by exact Hdebit.
    split; simpl; try assumption.
    + rewrite filter_app, fmap_app, credits_mirror0.
      rewrite (filter_cons_False _ _ _ Hc). simpl. by rewrite app_nil_r.
    + rewrite filter_app, fmap_app, debits_mirror0.
      rewrite (filter_cons_False _ _ _ Hd). simpl. by rewrite app_nil_r.
Qed.

End Invariants.

Section Reachability.

Import transactionController.

Lemma processTransaction_consistent `{runtime : Runtime}
    (text userPhone : string) (w : World) :
  Consistent (db w) → Consistent (db (processTransaction text userPhone w).2).
Proof.
  intros Hgood.
  destruct (truthy text) eqn:Htext; [destruct (truthy userPhone) eqn:Hphone |].
  - destruct (geminiClient.analyzeTransaction text userPhone w)
      as [analysis w1] eqn:Hanalysis.
    pose proof (analyzeTransaction_world text userPhone w) as [Hdb _].
    rewrite Hanalysis in Hdb. simpl in Hdb.
    destruct (truthy (TransactionAnalysis.type analysis)) eqn:Htype;
      [destruct (truthy (TransactionAnalysis.amount analysis)) eqn:Hamount |].
    + destruct (TransactionAnalysis.type analysis) as [type |] eqn:Hty;
        [| discriminate].
      destruct (TransactionAnalysis.amount analysis) as [amount |] eqn:Hamt;
        [| discriminate].
      rewrite (processTransaction_valid _ _ _ _ _ _ _
                 Htext Hphone Hanalysis Hty Htype Hamt Hamount).
      pose proof (persistTransaction_spec userPhone analysis type amount w1)
        as Hspec.
      cbv zeta in Hspec. rewrite Hdb in Hspec. unfold resolvedUser in Hspec.
      destruct Hspec as (specific & w2 & -> & Hus & Hts & _ & Hspecific).
      cbn [snd]. destruct (db w2) as [us ts cs ds]. cbn in Hus, Hts, Hspecific.
      destruct (prisma.lookupUser userPhone (db w)) as [user |] eqn:Hfound.
      * apply lookupUser_Some in Hfound as [_ Hin].
        pose proof (consistent_add_rows (db w) user type amount
                      (orNull (TransactionAnalysis.description analysis))
                      (orNull (TransactionAnalysis.category analysis))
                      (orNull (TransactionAnalysis.source analysis))
                      (normalizedDate analysis w1) Hgood Hin) as Hrows.
        cbv zeta in Hrows. subst us ts.
        destruct (String.eqb (toLowerCase type) "credit");
          [| destruct (String.eqb (toLowerCase type) "debit")];
          destruct Hspecific as (_ & -> & ->); exact Hrows.
      * assert (userPhone ≠ "") as Hne by (by apply truthy_string_spec).
        pose proof (consistent_add_user (db w) userPhone None Hgood Hne Hfound)
          as Hadded.
        set (user := User.mk (prisma.freshId User.id (users (db w))) userPhone None)
          in *.
        set (s1 := mkStore (users (db w) ++ [user]) (transactions (db w))
                     (credits (db w)) (debits (db w))) in *.
        assert (user ∈ users s1) as Hin
          by (apply elem_of_app; right; apply list_elem_of_singleton; done).
        pose proof (consistent_add_rows s1 user type amount
                      (orNull (TransactionAnalysis.description analysis))
                      (orNull (TransactionAnalysis.category analysis))
                      (orNull (TransactionAnalysis.source analysis))
                      (normalizedDate analysis w1) Hadded Hin) as Hrows.
        cbv zeta in Hrows. subst us ts. subst s1. cbn in Hrows.
        destruct (String.eqb (toLowerCase type) "credit");
          [| destruct (String.eqb (toLowerCase type) "debit")];
          destruct Hspecific as (_ & -> & ->); exact Hrows.
    + rewrite (processTransaction_invalid _ _ _ _ _ Htext Hphone Hanalysis)
        by (by right).
      simpl. by rewrite Hdb.
    + rewrite (processTransaction_invalid _ _ _ _ _ Htext Hphone Hanalysis)
        by (by left).
      simpl. by rewrite Hdb.
  - unfold processTransaction. rewrite Htext, Hphone. exact Hgood.
  - unfold processTransaction. rewrite Htext. exact Hgood.
Qed.

Lemma createUser_consistent (userPhone : string) (name : option string)
    (w : World) :
  Consistent (db w) →
  Consistent (db (usersController.createUser userPhone name w).2).
Proof.
  intros Hgood.
  destruct (truthy userPhone) eqn:Hphone.
  - destruct (prisma.lookupUser userPhone (db w)) as [user |] eqn:Hfound.
    + by rewrite (createUser_duplicate _ _ _ user Hphone Hfound).
    + pose proof (createUser_fresh userPhone name w Hphone Hfound) as Hrun.
      cbv zeta in Hrun. rewrite Hrun. cbn [snd db].
      apply consistent_add_user; [done | | done].
      by apply truthy_string_spec.
  - unfold usersController.createUser. rewrite Hphone. exact Hgood.
Qed.

(** Every handler keeps a store in good order in good order. *)
Lemma perform_consistent `{runtime : Runtime} (call : Call) (w : World) :
  Consistent (db w) → Consistent (db (perform call w)).
Proof.
  intros Hgood. destruct call; cbn [perform].
  - by apply processTransaction_consistent.
  - by rewrite queryTransactions_db.
  - by rewrite getTransactions_reads.
  - by rewrite getTransactionSummary_reads.
  - by rewrite getUserCredits_reads.
  - by rewrite getUserDebits_reads.
  - by rewrite getTransactionsByCategory_reads.
  - by apply createUser_consistent.
Qed.

Lemma reachable_consistent (w : World) : Reachable w → Consistent (db w).
Proof.
  induction 1 as [| runtime call w Hreach IH].
  - apply emptyStore_consistent.
  - by apply perform_consistent.
Qed.

End Reachability.

Section ReachableWorlds.

Import transactionController.

(** With unique phones, every stored user is the one found by its phone. *)
Lemma lookupUser_unique (s : Store) (user : User.t) :
  NoDup (User.phone <$> users s) → user ∈ users s →
  prisma.lookupUser (User.phone user) s = Some user.
Proof.
  unfold prisma.lookupUser.
  induction (users s) as [| u us IH]; intros Hnodup Hin.
  - by apply not_elem_of_nil in Hin.
  - rewrite fmap_cons in Hnodup. apply NoDup_cons in Hnodup as [Hfresh Hnodup].
    apply elem_of_cons in Hin as [-> | Hin]; simpl.
    + by rewrite String.eqb_refl.
    + destruct (String.eqb_spec (User.phone u) (User.phone user)) as [Heq | Hne].
      * exfalso. apply Hfresh. rewrite Heq. by apply list_elem_of_fmap_2.
      * by apply IH.
Qed.

(** X20. In every world the handlers can reach from the empty store, no
    two users share a phone, no user has an empty phone, and looking a
    stored user's phone up finds that user. *)
Theorem reachable_phones_identify_users (w : World) :
  Reachable w →
  NoDup (User.phone <$> users (db w))
  ∧ ∀ user, user ∈ users (db w) →
      User.phone user ≠ ""
      ∧ prisma.lookupUser (User.phone user) (db w) = Some user.
Proof.
  intros Hreach. destruct (reachable_consistent w Hreach).
  split; [done |]. intros user Hin. split; [auto |].
  by apply lookupUser_unique.
Qed.


(** A row of a mirrored ledger has its counterpart in the unified one. *)
Lemma mirrored_row {A F} (fields : A → F) (fieldsOf : Transaction.t → F)
    (P : Transaction.t → Prop) `{∀ t, Decision (P t)}
    (rows : list A) (ts : list Transaction.t) (row : A) :
  fields <$> rows = fieldsOf <$> filter P ts →
  row ∈ rows →
  ∃ t, t ∈ ts ∧ P t ∧ fieldsOf t = fields row.
Proof.
  intros Hmirror Hin.
  assert (fields row ∈ fieldsOf <$> filter P ts) as Hfields
    by (rewrite <- Hmirror; by apply list_elem_of_fmap_2).
  apply list_elem_of_fmap in Hfields as (t & Heq & Ht).
  apply list_elem_of_filter in Ht as [HP Ht]. by exists t.
Qed.

Lemma consistent_credits_owned (s : Store) (c : Credit.t) :
  Consistent s → c ∈ credits s →
  ∃ u, u ∈ users s ∧ User.id u = Credit.userId c.
Proof.
  intros [] Hin.
  destruct (mirrored_row creditFields creditFieldsOf isCredit _ _ c
              credits_mirror0 Hin) as (t & Ht & _ & Heq).
  destruct (transactions_owned0 t Ht) as (u & Hu & Hid).
  exists u. split; [done |]. rewrite Hid.
  unfold creditFieldsOf, creditFields in Heq. congruence.
Qed.

Lemma consistent_debits_owned (s : Store) (d : Debit.t) :
  Consistent s → d ∈ debits s →
  ∃ u, u ∈ users s ∧ User.id u = Debit.userId d.
Proof.
  intros [] Hin.
  destruct (mirrored_row debitFields debitFieldsOf isDebit _ _ d
              debits_mirror0 Hin) as (t & Ht & _ & Heq).
  destruct (transactions_owned0 t Ht) as (u & Hu & Hid).
  exists u. split; [done |]. rewrite Hid.
  unfold debitFieldsOf, debitFields in Heq. congruence.
Qed.

(** X22. In every reachable world each row of the three ledgers belongs to
    a stored user. *)
Theorem reachable_rows_have_owners (w : World) :
  Reachable w →
  (∀ t, t ∈ transactions (db w) →
     ∃ u, u ∈ users (db w) ∧ User.id u = Transaction.userId t)
  ∧ (∀ c, c ∈ credits (db w) →
       ∃ u, u ∈ users (db w) ∧ User.id u = Credit.userId c)
  ∧ (∀ d, d ∈ debits (db w) →
       ∃ u, u ∈ users (db w) ∧ User.id u = Debit.userId d).
Proof.
  intros Hreach. pose proof (reachable_consistent w Hreach) as Hgood.
  split; [by destruct Hgood |]. split.
  - intros c Hin. by apply consistent_credits_owned.
  - intros d Hin. by apply consistent_debits_owned.
Qed.




End ReachableWorlds.

(** ** How the handlers compose *)

Section Compositions.
Context `{runtime : Runtime}.

Import transactionController.

Lemma sumAmounts_snoc {A} (amount : A → float) (rows : list A) (row : A) :
  sumAmounts amount (rows ++ [row])
  = (sumAmounts amount rows + amount row)%float.
Proof. unfold sumAmounts. by rewrite foldl_app. Qed.

(** The summary of a registered user, spelled out. *)
Lemma getTransactionSummary_data (userPhone : string) (w : World) (user : User.t) :
  truthy userPhone = true →
  prisma.lookupUser userPhone (db w) = Some user →
  ∃ data : Summary,
    (getTransactionSummary userPhone w).1 = mkResponse 200 (SummaryData data)
    ∧ totalDebit data
      = sumAmounts Debit.amount (prisma.debitsOf (User.id user) (db w))
    ∧ totalCredit data
      = sumAmounts Credit.amount (prisma.creditsOf (User.id user) (db w))
    ∧ balance data = (totalCredit data - totalDebit data)%float
    ∧ debitCount data = length (prisma.debitsOf (User.id user) (db w))
    ∧ creditCount data = length (prisma.creditsOf (User.id user) (db w)).
Proof.
  intros Hphone Hfound. eexists. split.
  - unfold getTransactionSummary. rewrite Hphone. simpl.
    run. rewrite Hfound. reflexivity.
  - done.
Qed.

(** What a successful [processTransaction] of type credit or debit leaves
    in the tables of the user it worked for. *)
Lemma processTransaction_rows_of_user (text userPhone : string) (w w1 : World)
    (analysis : TransactionAnalysis.t) (type : string) (amount : float) :
  truthy text = true → truthy userPhone = true →
  geminiClient.analyzeTransaction text userPhone w = (analysis, w1) →
  TransactionAnalysis.type analysis = Some type → truthy type = true →
  TransactionAnalysis.amount analysis = Some amount → truthy amount = true →
  let user := resolvedUser userPhone (db w) in
  let s' := db (processTransaction text userPhone w).2 in
  prisma.lookupUser userPhone s' = Some user
  ∧ (∃ t, transactions s' = transactions (db w) ++ [t]
          ∧ Transaction.userId t = User.id user)
  ∧ (if String.eqb (toLowerCase type) "credit" then
       (∃ c, credits s' = credits (db w) ++ [c]
             ∧ Credit.userId c = User.id user ∧ Credit.amount c = amount)
       ∧ debits s' = debits (db w)
     else if String.eqb (toLowerCase type) "debit" then
       (∃ b, debits s' = debits (db w) ++ [b]
             ∧ Debit.userId b = User.id user ∧ Debit.amount b = amount)
       ∧ credits s' = credits (db w)
     else credits s' = credits (db w) ∧ debits s' = debits (db w)).
Proof.
  intros Htext Hphone Hanalysis Hty Htype Hamt Hamount. cbv zeta.
  rewrite (processTransaction_valid _ _ _ _ _ _ _
             Htext Hphone Hanalysis Hty Htype Hamt Hamount).
  pose proof (analyzeTransaction_world text userPhone w) as [Hdb _].
  rewrite Hanalysis in Hdb. simpl in Hdb.
  pose proof (persistTransaction_spec userPhone analysis type amount w1) as Hspec.
  cbv zeta in Hspec. rewrite Hdb in Hspec.
  destruct Hspec as (specific & w2 & -> & Hus & Hts & _ & Hspecific).
  cbn [snd]. split; [| split].
  - unfold resolvedUser in *.
    destruct (prisma.lookupUser userPhone (db w)) as [user |] eqn:Hfound.
    + unfold prisma.lookupUser in *. by rewrite Hus.
    + destruct (db w2) as [us ts cs ds]. simpl in Hus. subst us.
      by apply lookupUser_created.
  - eexists. split; [exact Hts | reflexivity].
  - destruct (String.eqb (toLowerCase type) "credit");
      [| destruct (String.eqb (toLowerCase type) "debit")];
      destruct Hspecific as (_ & Hcs & Hds).
    + split; [| done]. eexists. split; [exact Hcs |]. done.
    + split; [| done]. eexists. split; [exact Hds |]. done.
    + done.
Qed.

(** X25. Recording a credit for a registered user raises the
    [totalCredit] of the user's summary by exactly the amount (one
    floating-point addition) and the [creditCount] by one, and leaves the
    debit side alone; recording a debit does the same to the debit side. *)
Theorem recorded_amount_shows_in_the_summary
    (text userPhone : string) (w w1 : World)
    (analysis : TransactionAnalysis.t) (type : string) (amount : float)
    (user : User.t) :
  truthy text = true → truthy userPhone = true →
  geminiClient.analyzeTransaction text userPhone w = (analysis, w1) →
  TransactionAnalysis.type analysis = Some type → truthy type = true →
  TransactionAnalysis.amount analysis = Some amount → truthy amount = true →
  prisma.lookupUser userPhone (db w) = Some user →
  ∃ before after : Summary,
    (getTransactionSummary userPhone w).1
    = mkResponse 200 (SummaryData before)
    ∧ (getTransactionSummary userPhone
         (processTransaction text userPhone w).2).1
      = mkResponse 200 (SummaryData after)
    ∧ (toLowerCase type = "credit" →
       totalCredit after = (totalCredit before + amount)%float
       ∧ creditCount after = S (creditCount before)
       ∧ totalDebit after = totalDebit before
       ∧ debitCount after = debitCount before)
    ∧ (toLowerCase type = "debit" →
       totalDebit after = (totalDebit before + amount)%float
       ∧ debitCount after = S (debitCount before)
       ∧ totalCredit after = totalCredit before
       ∧ creditCount after = creditCount before).
Proof.
  intros Htext Hphone Hanalysis Hty Htype Hamt Hamount Hfound.
  pose proof (processTransaction_rows_of_user _ _ _ _ _ _ _
                Htext Hphone Hanalysis Hty Htype Hamt Hamount) as Hrows.
  cbv zeta in Hrows. unfold resolvedUser in Hrows. rewrite Hfound in Hrows.
  destruct Hrows as (Hfound' & _ & Hledgers).
  destruct (getTransactionSummary_data userPhone w user Hphone Hfound)
    as (before & Hbefore & Hd & Hc & _ & Hdn & Hcn).
  destruct (getTransactionSummary_data userPhone _ user Hphone Hfound')
    as (after & Hafter & Hd' & Hc' & _ & Hdn' & Hcn').
  exists before, after. split; [done |]. split; [done |].
  rewrite Hd, Hc, Hdn, Hcn, Hd', Hc', Hdn', Hcn'.
  unfold prisma.creditsOf, prisma.debitsOf. split.
  - intros Hcredit. rewrite Hcredit in Hledgers. simpl in Hledgers.
    destruct Hledgers as ((c & -> & Howner & <-) & ->).
    rewrite filter_app, filter_cons, filter_nil.
    destruct (decide (Credit.userId c = User.id user)); [| done].
    rewrite sumAmounts_snoc, length_app. simpl. repeat split; lia.
  - intros Hdebit. rewrite Hdebit in Hledgers. simpl in Hledgers.
    destruct Hledgers as ((b & -> & Howner & <-) & ->).
    rewrite filter_app, filter_cons, filter_nil.
    destruct (decide (Debit.userId b = User.id user)); [| done].
    rewrite sumAmounts_snoc, length_app. simpl. repeat split; lia.
Qed.

Lemma filter_none {A} (P : A → Prop) `{∀ x, Decision (P x)} (l : list A) :
  (∀ x, x ∈ l → ¬ P x) → filter P l = [].
Proof.
  induction l as [| x l IH]; intros Hnone; [reflexivity |].
  rewrite filter_cons. destruct (decide (P x)) as [HP | _].
  - destruct (Hnone x); [left | done].
  - apply IH. intros y Hy. apply Hnone. by right.
Qed.

(** A user about to be created owns nothing yet in a store in good order. *)
Lemma fresh_user_owns_nothing (s : Store) :
  Consistent s →
  prisma.creditsOf (prisma.freshId User.id (users s)) s = []
  ∧ prisma.debitsOf (prisma.freshId User.id (users s)) s = [].
Proof.
  intros Hgood.
  assert (∀ u, u ∈ users s → User.id u ≠ prisma.freshId User.id (users s))
    as Hfresh.
  { intros u Hu Heq. apply (freshId_fresh User.id (users s)).
    rewrite <- Heq. by apply list_elem_of_fmap_2. }
  split; apply filter_none.
  - intros c Hc Howner.
    destruct (consistent_credits_owned s c Hgood Hc) as (u & Hu & Hid).
    apply (Hfresh u Hu). congruence.
  - intros d Hd Howner.
    destruct (consistent_debits_owned s d Hgood Hd) as (u & Hu & Hid).
    apply (Hfresh u Hu). congruence.
Qed.

(** X26. In a reachable world, the first transaction of a phone nobody
    has opens that user's ledger: the summary asked for right afterwards
    shows the amount, added to [0], on the side of its type, one row there,
    and nothing on the other side. *)
Theorem first_transaction_opens_the_ledger
    (text userPhone : string) (w w1 : World)
    (analysis : TransactionAnalysis.t) (type : string) (amount : float) :
  Reachable w →
  truthy text = true → truthy userPhone = true →
  geminiClient.analyzeTransaction text userPhone w = (analysis, w1) →
  TransactionAnalysis.type analysis = Some type → truthy type = true →
  TransactionAnalysis.amount analysis = Some amount → truthy amount = true →
  prisma.lookupUser userPhone (db w) = None →
  ∃ after : Summary,
    (getTransactionSummary userPhone
       (processTransaction text userPhone w).2).1
    = mkResponse 200 (SummaryData after)
    ∧ (toLowerCase type = "credit" →
       totalCredit after = (0 + amount)%float ∧ creditCount after = 1
       ∧ totalDebit after = 0%float ∧ debitCount after = 0
       ∧ balance after = (0 + amount - 0)%float)
    ∧ (toLowerCase type = "debit" →
       totalDebit after = (0 + amount)%float ∧ debitCount after = 1
       ∧ totalCredit after = 0%float ∧ creditCount after = 0
       ∧ balance after = (0 - (0 + amount))%float).
Proof.
  intros Hreach Htext Hphone Hanalysis Hty Htype Hamt Hamount Habsent.
  pose proof (processTransaction_rows_of_user _ _ _ _ _ _ _
                Htext Hphone Hanalysis Hty Htype Hamt Hamount) as Hrows.
  cbv zeta in Hrows. unfold resolvedUser in Hrows. rewrite Habsent in Hrows.
  destruct Hrows as (Hfound' & _ & Hledgers).
  destruct (fresh_user_owns_nothing (db w) (reachable_consistent w Hreach))
    as [Hcredits Hdebits].
  destruct (getTransactionSummary_data userPhone _ _ Hphone Hfound')
    as (after & Hafter & Hd' & Hc' & Hb' & Hdn' & Hcn').
  exists after. split; [done |].
  rewrite Hb', Hd', Hc', Hdn', Hcn'.
  unfold prisma.creditsOf, prisma.debitsOf in *. cbn [User.id] in *. split.
  - intros Hcredit. rewrite Hcredit in Hledgers. simpl in Hledgers.
    destruct Hledgers as ((c & -> & Howner & <-) & ->).
    rewrite filter_app, filter_cons, filter_nil, Hcredits, Hdebits.
    destruct (decide (Credit.userId c = _)); [| done]. done.
  - intros Hdebit. rewrite Hdebit in Hledgers. simpl in Hledgers.
    destruct Hledgers as ((b & -> & Howner & <-) & ->).
    rewrite filter_app, filter_cons, filter_nil, Hcredits, Hdebits.
    destruct (decide (Debit.userId b = _)); [| done]. done.
Qed.

(** X27. After a successful [processTransaction] the user it worked for
    owns a transaction, so a question put to [queryTransactions] for the
    same phone is never answered with the canned sentence: the model is
    asked, once, about a list of at least one transaction. *)
Theorem recorded_transaction_reaches_the_query_engine
    (text question userPhone : string) (w w1 : World)
    (analysis : TransactionAnalysis.t) (type : string) (amount : float) :
  truthy text = true → truthy question = true → truthy userPhone = true →
  geminiClient.analyzeTransaction text userPhone w = (analysis, w1) →
  TransactionAnalysis.type analysis = Some type → truthy type = true →
  TransactionAnalysis.amount analysis = Some amount → truthy amount = true →
  let w' := (processTransaction text userPhone w).2 in
  ∃ (answer : option string) (insights suggestedCategories : option (list string))
    (relevant : list RelevantTransaction.t) (totalAmount : float)
    (rows : list Transaction.t) (w'' : World),
    queryTransactions question userPhone w'
    = (mkResponse 200
         (QueryData answer insights suggestedCategories relevant totalAmount
            (length rows)), w'')
    ∧ rows ≠ []
    ∧ aiCalls w'' = aiCalls w' ++ [QueryPrompt question rows].
Proof.
  intros Htext Hquestion Hphone Hanalysis Hty Htype Hamt Hamount. cbv zeta.
  pose proof (processTransaction_rows_of_user _ _ _ _ _ _ _
                Htext Hphone Hanalysis Hty Htype Hamt Hamount) as Hrows.
  cbv zeta in Hrows. destruct Hrows as (Hfound' & (t & Hts & Howner) & _).
  set (w' := (processTransaction text userPhone w).2) in *.
  set (user := resolvedUser userPhone (db w)) in *.
  assert (prisma.transactionsOf (User.id user) (db w') ≠ []) as Hsome.
  { intros Hnil. apply (proj1 (transactionsOf_nil _ _) Hnil t); [| done].
    rewrite Hts. apply elem_of_app. right. by apply list_elem_of_singleton. }
  rewrite (queryTransactions_delegates _ _ _ user Hquestion Hphone Hfound' Hsome).
  cbv zeta.
  pose proof (geminiClient_queryTransactions_world question userPhone
                (prisma.transactionsOf (User.id user) (db w')) w') as Hworld.
  destruct (geminiClient.queryTransactions question
              (prisma.transactionsOf (User.id user) (db w')) userPhone w')
    as [result w''].
  simpl in Hworld. subst w''.
  do 7 eexists. split; [reflexivity |]. split; [exact Hsome | reflexivity].
Qed.

(** X28. A user registered by [createUser] is the one [GET /users/search]
    answers with for that phone right afterwards. *)
Theorem created_user_is_found_by_search
    (userPhone : string) (name : option string) (req : Request) (w : World) :
  truthy userPhone = true →
  prisma.lookupUser userPhone (db w) = None →
  identifiedPhone req = userPhone →
  ∃ (user : User.t) (w1 : World),
    usersController.createUser userPhone name w
    = (mkResponse 201 (CreateUserData "User created successfully" user), w1)
    ∧ usersRoutes.getSearch req w1 = (mkResponse 200 (UserData user), w1)
    ∧ User.phone user = userPhone
    ∧ User.name user = orNull name.
Proof.
  intros Hphone Habsent Hreq.
  pose proof (createUser_fresh userPhone name w Hphone Habsent) as Hrun.
  cbv zeta in Hrun. do 2 eexists. split; [exact Hrun |].
  split; [| done].
  unfold usersRoutes.getSearch.
  rewrite (checkUserExists_present _ _ _ _
             (User.mk (prisma.freshId User.id (users (db w))) userPhone
                (orNull name))).
  - reflexivity.
  - by rewrite Hreq.
  - rewrite Hreq. cbn [db]. by apply lookupUser_created.
Qed.

(** X29. When the model's reply has no date (or an empty one) and the
    runtime reads its own [toISOString] back, the transaction is stored
    under the moment the analyzer defaulted the date to: its reading of the
    clock. *)
Theorem missing_date_is_the_time_of_analysis
    (text userPhone resultText : string) (w : World)
    (jsonResponse : TransactionAnalysis.t) (type : string) (amount : float) :
  truthy text = true → truthy userPhone = true →
  generateContent (AnalyzePrompt text) = Resolves (Some resultText) →
  JSON_parse_analysis resultText = ParsedObject jsonResponse →
  truthy (TransactionAnalysis.date jsonResponse) = false →
  TransactionAnalysis.type jsonResponse = Some type → truthy type = true →
  TransactionAnalysis.amount jsonResponse = Some amount → truthy amount = true →
  Date_parse (toISOString (clock (ticks w))) = Some (clock (ticks w)) →
  ∃ (t : Transaction.t) (specific : option SpecificTransaction)
    (echo : CondensedAnalysis) (w' : World),
    processTransaction text userPhone w
    = (mkResponse 201 (ProcessData t specific echo), w')
    ∧ Transaction.date t = clock (ticks w)
    ∧ c_date echo = clock (ticks w).
Proof.
  intros Htext Hphone Hgen Hparse Hdate Hty Htype Hamt Hamount Hround.
  assert (geminiClient.analyzeTransaction text userPhone w
          = (TransactionAnalysis.set_date (toISOString (clock (ticks w)))
               jsonResponse,
             mkWorld (db w) (S (ticks w)) (aiCalls w ++ [AnalyzePrompt text])))
    as Hanalysis.
  { unfold geminiClient.analyzeTransaction, geminiClient.analyzeTransaction_try.
    run. rewrite Hgen, Hparse, Hdate. reflexivity. }
  rewrite (processTransaction_valid _ _ _ _ _ type amount
             Htext Hphone Hanalysis Hty Htype Hamt Hamount).
  pose proof (persistTransaction_spec userPhone
                (TransactionAnalysis.set_date (toISOString (clock (ticks w)))
                   jsonResponse)
                type amount
                (mkWorld (db w) (S (ticks w)) (aiCalls w ++ [AnalyzePrompt text])))
    as Hspec.
  cbv zeta in Hspec. unfold normalizedDate, newDateOf in Hspec.
  cbn [TransactionAnalysis.date TransactionAnalysis.set_date] in Hspec.
  rewrite Hround in Hspec.
  destruct Hspec as (specific & w' & Hrun & _).
  do 4 eexists. split; [exact Hrun |]. split; reflexivity.
Qed.

End Compositions.

(** ** The further properties at work on concrete requests *)

Import transactionController.

Lemma getTransactions_lists_the_users_rows_latest_first_witness :
  ∃ rows : list Transaction.t,
    getTransactions "+1555" ledgerWorld
    = (mkResponse 200 (ListData rows), ledgerWorld)
    ∧ rows ≡ₚ filter (λ t, Transaction.userId t = 1) (transactions (db ledgerWorld))
    ∧ StronglySorted (λ a b, (Transaction.date b ≤ Transaction.date a)%Z) rows.
Proof.
  apply (getTransactions_lists_the_users_rows_latest_first
           "+1555" ledgerWorld (User.mk 1 "+1555" None));
    reflexivity.
Defined.

Lemma getUserCredits_lists_the_users_rows_latest_first_witness :
  ∃ rows : list Credit.t,
    getUserCredits "+1555" ledgerWorld
    = (mkResponse 200 (ListData rows), ledgerWorld)
    ∧ rows ≡ₚ filter (λ c, Credit.userId c = 1) (credits (db ledgerWorld))
    ∧ StronglySorted (λ a b, (Credit.date b ≤ Credit.date a)%Z) rows.
Proof.
  apply (getUserCredits_lists_the_users_rows_latest_first
           "+1555" ledgerWorld (User.mk 1 "+1555" None));
    reflexivity.
Defined.

Lemma getUserDebits_lists_the_users_rows_latest_first_witness :
  ∃ rows : list Debit.t,
    getUserDebits "+1555" ledgerWorld
    = (mkResponse 200 (ListData rows), ledgerWorld)
    ∧ rows ≡ₚ filter (λ d, Debit.userId d = 1) (debits (db ledgerWorld))
    ∧ StronglySorted (λ a b, (Debit.date b ≤ Debit.date a)%Z) rows.
Proof.
  apply (getUserDebits_lists_the_users_rows_latest_first
           "+1555" ledgerWorld (User.mk 1 "+1555" None));
    reflexivity.
Defined.

Lemma read_accessors_reject_unknown_phone_witness :
  (getTransactions "+1999" ledgerWorld).1
  = mkResponse 404 (ListFailure "User not found")
  ∧ (getUserCredits "+1999" ledgerWorld).1
    = mkResponse 404 (ListFailure "User not found")
  ∧ (getUserDebits "+1999" ledgerWorld).1
    = mkResponse 404 (ListFailure "User not found")
  ∧ (getTransactionSummary "+1999" ledgerWorld).1
    = mkResponse 404 (SummaryFailure "User not found")
  ∧ (getTransactionsByCategory "+1999" "food" ledgerWorld).1
    = mkResponse 404 (CategoryFailure "User not found").
Proof.
  apply (read_accessors_reject_unknown_phone "+1999" "food" ledgerWorld);
    reflexivity.
Defined.

Lemma getTransactionsByCategory_totals_debits_counts_transactions_witness :
  ∃ (ts : list Transaction.t) (ds : list Debit.t),
    getTransactionsByCategory "+1555" "FOOD" ledgerWorld
    = (mkResponse 200
         (CategoryData ts ds "FOOD" (sum (Debit.amount <$> ds)) (length ts)),
       ledgerWorld)
    ∧ ts ≡ₚ filter (λ t, Transaction.userId t = 1
                         ∧ prisma.containsInsensitive (Transaction.category t)
                             "FOOD" = true)
              (transactions (db ledgerWorld))
    ∧ ds ≡ₚ filter (λ d, Debit.userId d = 1
                         ∧ prisma.containsInsensitive (Debit.category d)
                             "FOOD" = true)
              (debits (db ledgerWorld))
    ∧ StronglySorted (λ a b, (Transaction.date b ≤ Transaction.date a)%Z) ts
    ∧ StronglySorted (λ a b, (Debit.date b ≤ Debit.date a)%Z) ds.
Proof.
  apply (getTransactionsByCategory_totals_debits_counts_transactions
           "+1555" "FOOD" ledgerWorld (User.mk 1 "+1555" None));
    reflexivity.
Defined.

Lemma getTransactionsByCategory_ignores_case_witness :
  ∃ (ts : list Transaction.t) (ds : list Debit.t) (totalAmount : float)
    (count : nat),
    getTransactionsByCategory "+1555" "food" ledgerWorld
    = (mkResponse 200 (CategoryData ts ds "food" totalAmount count), ledgerWorld)
    ∧ getTransactionsByCategory "+1555" "FoOd" ledgerWorld
      = (mkResponse 200 (CategoryData ts ds "FoOd" totalAmount count), ledgerWorld).
Proof.
  apply (getTransactionsByCategory_ignores_case
           "+1555" "food" "FoOd" ledgerWorld (User.mk 1 "+1555" None));
    reflexivity.
Defined.


Lemma queryTransactions_200_carries_an_answer_witness :
  ∃ answer : string,
    truthy answer = true
    ∧ (QueryEarly "You don't have any transactions yet." = QueryEarly answer
       ∨ ∃ insights suggestedCategories relevantTransactions totalAmount count,
           QueryEarly "You don't have any transactions yet."
           = QueryData (Some answer) insights suggestedCategories
               relevantTransactions totalAmount count).
Proof.
  apply (queryTransactions_200_carries_an_answer (runtime := failingRuntime)
           "what's my balance?" "+1555" registeredWorld registeredWorld
           (mkResponse 200 (QueryEarly "You don't have any transactions yet.")));
    reflexivity.
Defined.

Lemma guarded_getSummary_of_registered_user_is_400_witness :
  guardedRoutes.getSummary searchRequest ledgerWorld
  = (mkResponse 400 (SummaryFailure "User phone number is required"), ledgerWorld).
Proof.
  apply (guarded_getSummary_of_registered_user_is_400
           searchRequest ledgerWorld (User.mk 1 "+1555" None));
    reflexivity.
Defined.

Lemma errorHandler_hides_unknown_errors_in_production_witness :
  errorHandler.errorHandler true typeError
  = mkResponse 500
      (errorHandler.mkBody "Internal Server Error" None None None).
Proof.
  apply (errorHandler_hides_unknown_errors_in_production typeError);
    [reflexivity | discriminate].
Defined.

Lemma errorHandler_names_the_conflicting_fields_witness :
  status (errorHandler.errorHandler false duplicatePhoneError) = 409
  ∧ errorHandler.body_message
      (json (errorHandler.errorHandler false duplicatePhoneError))
    = "Unique constraint failed on the field(s): phone".
Proof.
  apply (errorHandler_names_the_conflicting_fields false duplicatePhoneError);
    reflexivity.
Defined.

Lemma getPrismaClient_constructs_one_client_witness :
  ∃ client : nat,
    prismaClient.calls 3 prismaClient.loaded
    = (replicate 3 client, prismaClient.mkState (Some client) 1).
Proof. apply (getPrismaClient_constructs_one_client 3). lia. Defined.

Lemma reachable_phones_identify_users_witness :
  NoDup (User.phone <$> users (db momWorld))
  ∧ ∀ user, user ∈ users (db momWorld) →
      User.phone user ≠ ""
      ∧ prisma.lookupUser (User.phone user) (db momWorld) = Some user.
Proof.
  apply (reachable_phones_identify_users momWorld).
  apply reachable_call, reachable_start.
Defined.


Lemma reachable_rows_have_owners_witness :
  (∀ t, t ∈ transactions (db momWorld) →
     ∃ u, u ∈ users (db momWorld) ∧ User.id u = Transaction.userId t)
  ∧ (∀ c, c ∈ credits (db momWorld) →
       ∃ u, u ∈ users (db momWorld) ∧ User.id u = Credit.userId c)
  ∧ (∀ d, d ∈ debits (db momWorld) →
       ∃ u, u ∈ users (db momWorld) ∧ User.id u = Debit.userId d).
Proof.
  apply (reachable_rows_have_owners momWorld).
  apply reachable_call, reachable_start.
Defined.



Lemma recorded_amount_shows_in_the_summary_witness :
  ∃ before after : Summary,
    (getTransactionSummary "+1555" ledgerWorld).1
    = mkResponse 200 (SummaryData before)
    ∧ (getTransactionSummary "+1555"
         (processTransaction (runtime := momRuntime)
            "received 500 from mom" "+1555" ledgerWorld).2).1
      = mkResponse 200 (SummaryData after)
    ∧ ("credit" = "credit" →
       totalCredit after = (totalCredit before + 500)%float
       ∧ creditCount after = S (creditCount before)
       ∧ totalDebit after = totalDebit before
       ∧ debitCount after = debitCount before)
    ∧ ("credit" = "debit" →
       totalDebit after = (totalDebit before + 500)%float
       ∧ debitCount after = S (debitCount before)
       ∧ totalCredit after = totalCredit before
       ∧ creditCount after = creditCount before).
Proof.
  apply (recorded_amount_shows_in_the_summary (runtime := momRuntime)
           "received 500 from mom" "+1555" ledgerWorld
           (mkWorld (db ledgerWorld) 0 [AnalyzePrompt "received 500 from mom"])
           momAnalysis "credit" 500%float (User.mk 1 "+1555" None));
    reflexivity.
Defined.

Lemma first_transaction_opens_the_ledger_witness :
  ∃ after : Summary,
    (getTransactionSummary "+1555"
       (processTransaction (runtime := momRuntime)
          "received 500 from mom" "+1555" emptyWorld).2).1
    = mkResponse 200 (SummaryData after)
    ∧ ("credit" = "credit" →
       totalCredit after = (0 + 500)%float ∧ creditCount after = 1
       ∧ totalDebit after = 0%float ∧ debitCount after = 0
       ∧ balance after = (0 + 500 - 0)%float)
    ∧ ("credit" = "debit" →
       totalDebit after = (0 + 500)%float ∧ debitCount after = 1
       ∧ totalCredit after = 0%float ∧ creditCount after = 0
       ∧ balance after = (0 - (0 + 500))%float).
Proof.
  apply (first_transaction_opens_the_ledger (runtime := momRuntime)
           "received 500 from mom" "+1555" emptyWorld
           (mkWorld emptyStore 0 [AnalyzePrompt "received 500 from mom"])
           momAnalysis "credit" 500%float);
    first [reflexivity | apply reachable_start].
Defined.

Lemma recorded_transaction_reaches_the_query_engine_witness :
  let w' := (processTransaction (runtime := momRuntime)
               "received 500 from mom" "+1555" emptyWorld).2 in
  ∃ (answer : option string) (insights suggestedCategories : option (list string))
    (relevant : list RelevantTransaction.t) (totalAmount : float)
    (rows : list Transaction.t) (w'' : World),
    queryTransactions (runtime := momRuntime) "what's my balance?" "+1555" w'
    = (mkResponse 200
         (QueryData answer insights suggestedCategories relevant totalAmount
            (length rows)), w'')
    ∧ rows ≠ []
    ∧ aiCalls w'' = aiCalls w' ++ [QueryPrompt "what's my balance?" rows].
Proof.
  apply (recorded_transaction_reaches_the_query_engine (runtime := momRuntime)
           "received 500 from mom" "what's my balance?" "+1555" emptyWorld
           (mkWorld emptyStore 0 [AnalyzePrompt "received 500 from mom"])
           momAnalysis "credit" 500%float);
    reflexivity.
Defined.

Lemma created_user_is_found_by_search_witness :
  ∃ (user : User.t) (w1 : World),
    usersController.createUser "+1555" (Some "Asha") emptyWorld
    = (mkResponse 201 (CreateUserData "User created successfully" user), w1)
    ∧ usersRoutes.getSearch searchRequest w1 = (mkResponse 200 (UserData user), w1)
    ∧ User.phone user = "+1555"
    ∧ User.name user = orNull (Some "Asha").
Proof.
  apply (created_user_is_found_by_search
           "+1555" (Some "Asha") searchRequest emptyWorld);
    reflexivity.
Defined.

Lemma missing_date_is_the_time_of_analysis_witness :
  ∃ (t : Transaction.t) (specific : option SpecificTransaction)
    (echo : CondensedAnalysis) (w' : World),
    processTransaction (runtime := transferRuntime)
      "moved 120 to savings" "+1555" lateWorld
    = (mkResponse 201 (ProcessData t specific echo), w')
    ∧ Transaction.date t = 24%Z
    ∧ c_date echo = 24%Z.
Proof.
  apply (missing_date_is_the_time_of_analysis (runtime := transferRuntime)
           "moved 120 to savings" "+1555" "{...}" lateWorld
           transferAnalysis "Transfer" 120%float);
    reflexivity.
Defined.
